(** * twitchrecorder: the recording controller and its post-processor

    A shallow embedding of [twitchrecorder.py].  Every method of the
    [TwitchRecorder] class is a computation in a small monad that threads
    the recorder object ([self]) and the outside world (network,
    subprocesses, clock, file system) and that may raise a Python
    exception.

    Conventions
    - a Python [str] is the list of its Unicode code points;
    - a path is the list of its components, [os.path.join] appends
      components;
    - every call that leaves the interpreter (HTTP request, subprocess,
      clock) asks the world for its outcome; requests, subprocesses,
      sleeps and log records are kept in the trace, in the order in which
      they happen;
    - the webhook request of [send_discord_message] is kept in the trace
      when it is made; its response is ignored by the source, and an
      exception that the request raises is not caught there;
    - a call that leaves the interpreter returns or raises: a request or
      a subprocess that never comes back is not modelled;
    - the log file [twitch-recorder.log] is kept apart from the rest of
      the file system: what the root logger's file handler appends to it
      is a component of the world of its own; [main] opens it, which is
      taken to succeed, and it is none of the paths that the recorder
      reads or writes (the working directory is not the directory of the
      raw captures);
    - a path names one file: the names joined by [os.path.join] are taken
      to be plain components (not empty, no separator, neither [.] nor
      [..]);
    - the [while True] loop of [check_stream_continuously] is unrolled a
      given number of times;
    - [stream_check_thread.start()] is an event of the trace of [run]: the
      polling loop runs in its own thread from then on, and [sys.exit()]
      in it raises [SystemExit] there, which ends that thread;
    - [main] is given what [getopt.getopt] makes of the arguments; of the
      [logging] module it sees the root logger, which has no handler
      when [main] starts: the number of its handlers and its level. *)

From Stdlib Require Import ZArith NArith Ascii String.
From stdpp Require Import gmap list strings.

Set Default Proof Using "Type".
Set Warnings "-register-all".
Open Scope list_scope.

(** ** Python strings *)

Abbreviation pystr := (list N).

Definition py (s : string) : pystr := N_of_ascii <$> list_ascii_of_string s.
Arguments py _ : simpl never.

(** ** Python values, as [r.json()] produces them *)

Inductive pyval : Type :=
| PNone
| PBool (b : bool)
| PInt (z : Z)
| PStr (s : pystr)
| PList (l : list pyval)
| PDict (d : list (pystr * pyval)).

(** Truth value of an object ([not x] is its negation). *)
Definition truthy (v : pyval) : bool :=
  match v with
  | PNone => false
  | PBool b => b
  | PInt z => negb (z =? 0)%Z
  | PStr s => negb (bool_decide (s = []))
  | PList l => match l with [] => false | _ => true end
  | PDict d => match d with [] => false | _ => true end
  end.

Fixpoint dict_lookup (k : pystr) (d : list (pystr * pyval)) : option pyval :=
  match d with
  | [] => None
  | (k', v) :: d' => if bool_decide (k' = k) then Some v else dict_lookup k d'
  end.

(** ** Exceptions *)

Inductive oserror : Type :=
| FileNotFoundError
| FileExistsError
| NotADirectoryError
| IsADirectoryError
| PermissionError
| ShutilError.

(** [RequestException response] stands for every exception class of the
    [requests] library; [response] is the status code of the response
    attached to it ([e.response]) when there is one. *)
Inductive exn : Type :=
| SystemExit
| RequestException (response : option nat)
| OSError (e : oserror)
| KeyError
| TypeError
| AttributeError
| ValueError.

(** [except Exception] does not catch [SystemExit]. *)
Definition is_Exception (e : exn) : bool :=
  match e with SystemExit => false | _ => true end.

Definition is_RequestException (e : exn) : bool :=
  match e with RequestException _ => true | _ => false end.

(** [IOError] is an alias of [OSError]. *)
Definition is_IOError (e : exn) : bool :=
  match e with OSError _ => true | _ => false end.

Inductive result (A : Type) : Type :=
| Ret (a : A)
| Raise (e : exn).
Arguments Ret {A} a.
Arguments Raise {A} e.

(** ** Subscripting, iteration and [dict.get] *)

(** [v[k]] for a string key [k]. *)
Definition subscript (v : pyval) (k : pystr) : result pyval :=
  match v with
  | PDict d => match dict_lookup k d with
               | Some x => Ret x
               | None => Raise KeyError
               end
  | _ => Raise TypeError
  end.

(** [next(iter(v), None)] *)
Definition next_iter (v : pyval) : result pyval :=
  match v with
  | PList l => Ret (match l with [] => PNone | x :: _ => x end)
  | PDict d => Ret (match d with [] => PNone | (k, _) :: _ => PStr k end)
  | PStr s => Ret (match s with [] => PNone | c :: _ => PStr [c] end)
  | _ => Raise TypeError
  end.

(** [v.get(k)] *)
Definition dict_get (v : pyval) (k : pystr) : result pyval :=
  match v with
  | PDict d => Ret (match dict_lookup k d with Some x => x | None => PNone end)
  | _ => Raise AttributeError
  end.

(** [s + v] for a string [s]. *)
Definition str_add (s : pystr) (v : pyval) : result pystr :=
  match v with
  | PStr t => Ret (s ++ t)
  | _ => Raise TypeError
  end.

(** ** The file system *)

Abbreviation path := (list (list N)).
Abbreviation bytes := (list N).

Inductive node : Type :=
| File (content : bytes)
| Dir (writable : bool).

Abbreviation filesystem := (gmap path node).

Definition os_path_join (p : path) (names : list pystr) : path := p ++ names.

Definition dirname (p : path) : path := removelast p.

(** May an entry be added to or removed from directory [d]?  The empty
    path is the working directory, which exists and is writable. *)
Definition dir_access (fs : filesystem) (d : path) : result unit :=
  match d with
  | [] => Ret ()
  | _ => match fs !! d with
         | None => Raise (OSError FileNotFoundError)
         | Some (File _) => Raise (OSError NotADirectoryError)
         | Some (Dir true) => Ret ()
         | Some (Dir false) => Raise (OSError PermissionError)
         end
  end.

Definition dir_writable (fs : filesystem) (d : path) : bool :=
  match dir_access fs d with Ret _ => true | Raise _ => false end.

Definition os_path_isdir (fs : filesystem) (p : path) : bool :=
  match fs !! p with Some (Dir _) => true | _ => false end.

Definition os_path_isfile (fs : filesystem) (p : path) : bool :=
  match fs !! p with Some (File _) => true | _ => false end.

Definition os_path_exists (fs : filesystem) (p : path) : bool :=
  match fs !! p with Some _ => true | None => false end.

(** [os.remove] *)
Definition os_remove (fs : filesystem) (p : path) : result unit * filesystem :=
  match fs !! p with
  | None => (Raise (OSError FileNotFoundError), fs)
  | Some (Dir _) => (Raise (OSError IsADirectoryError), fs)
  | Some (File _) =>
      if dir_writable fs (dirname p) then (Ret (), delete p fs)
      else (Raise (OSError PermissionError), fs)
  end.

(** [os.mkdir] *)
Definition os_mkdir (fs : filesystem) (p : path) : result unit * filesystem :=
  match fs !! p with
  | Some _ => (Raise (OSError FileExistsError), fs)
  | None =>
      match p with
      | [] => (Raise (OSError FileExistsError), fs)
      | _ =>
          match dir_access fs (dirname p) with
          | Ret _ => (Ret (), <[p := Dir true]> fs)
          | Raise e => (Raise e, fs)
          end
      end
  end.

(** [os.makedirs(p)]: the missing ancestors are made first, then [p]
    itself, which must not exist. [done] holds the components already
    walked. *)
Fixpoint makedirs_from (done : path) (rest : list pystr) (fs : filesystem)
  : result unit * filesystem :=
  match rest with
  | [] => (Ret (), fs)
  | [name] => os_mkdir fs (done ++ [name])
  | name :: rest' =>
      let d := done ++ [name] in
      if os_path_exists fs d then makedirs_from d rest' fs
      else match os_mkdir fs d with
           | (Ret _, fs') => makedirs_from d rest' fs'
           | (Raise e, fs') => (Raise e, fs')
           end
  end.

Definition os_makedirs (fs : filesystem) (p : path) : result unit * filesystem :=
  match p with
  | [] => (Raise (OSError FileExistsError), fs)
  | _ => makedirs_from [] p fs
  end.

(** The entry of directory [d] that the key [k] names, if any. *)
Definition entry_of (d : path) (k : path) : option pystr :=
  match last k with
  | Some name => if bool_decide (removelast k = d) then Some name else None
  | None => None
  end.

(** [os.listdir]; the order is the file system's. *)
Definition os_listdir (fs : filesystem) (d : path) : result (list pystr) :=
  match fs !! d with
  | None => Raise (OSError FileNotFoundError)
  | Some (File _) => Raise (OSError NotADirectoryError)
  | Some (Dir _) => Ret (omap (λ kv, entry_of d kv.1) (map_to_list fs))
  end.

(** [shutil.move(src, dst)] for a regular file [src]. When [dst] is an
    existing directory the file goes inside it, under its own name, which
    must be free there. [os.rename] is tried first; it needs both
    directories to be writable. When it fails, [copy2] writes the
    destination, which needs a writable directory only where the
    destination file is not there yet, and [os.unlink] removes [src].
    Regular files can be read and written by the process; moving a
    directory tree is not modelled and reported as an error. *)
Definition shutil_move (fs : filesystem) (src dst : path) : result unit * filesystem :=
  let real_dst :=
    if os_path_isdir fs dst
    then match last src with Some name => dst ++ [name] | None => dst end
    else dst in
  if os_path_isdir fs dst && os_path_exists fs real_dst
  then (Raise (OSError ShutilError), fs)
  else
    match fs !! src with
    | None => (Raise (OSError FileNotFoundError), fs)
    | Some (Dir _) => (Raise (OSError ShutilError), fs)
    | Some (File content) =>
        if bool_decide (real_dst = src) then (Ret (), fs)
        else
          match (if os_path_isfile fs real_dst then Ret ()
                 else dir_access fs (dirname real_dst)) with
          | Raise e => (Raise e, fs)
          | Ret _ =>
              if dir_writable fs (dirname src)
              then (Ret (), <[real_dst := File content]> (delete src fs))
              else (Raise (OSError PermissionError),
                    <[real_dst := File content]> fs)
          end
    end.

(** ** The outside world *)

(** What [requests.get] does: it raises, or it returns a response with a
    status code and a body; [body] is what [r.json()] does with it. *)
Inductive get_outcome : Type :=
| GetRaises (e : exn)
| GetResponse (status_code : nat) (body : result pyval).

(** What a subprocess does: [subprocess.call] raises (the program cannot
    be started), or the program runs, leaves [written] at its output path
    (nothing when [None]) and exits with [returncode]. *)
Inductive call_outcome : Type :=
| CallRaises (e : oserror)
| CallExit (returncode : Z) (written : option bytes).

Inductive loglevel : Type := INFO | ERROR_LEVEL.

Inductive logmsg : Type :=
| MsgUserNotFound
| MsgText (s : pystr)
| MsgOffline (user : pystr) (seconds : nat)
| MsgOnline (user : pystr)
| MsgRecordingDone
| MsgSkipFixing
| MsgProcessingDone
| MsgPreviouslyRecorded
| MsgMoving (p : path)
| MsgFixing (p : path)
| MsgException (e : exn).

Inductive event : Type :=
| EGet (url : pystr) (headers : list (pystr * pystr))
| ETokenPost (url : pystr)
| EWebhook (url title description : pystr) (color : Z)
| ESleep (seconds : nat)
| ELog (level : loglevel) (msg : logmsg)
| EStreamlink (argv : list pystr) (output : path)
| EFfmpeg (ffmpeg : pystr) (input output : path)
| EThreadStart
| ESysExit.

(** The oracles give the outcome of the n-th call still to come.  [w_fs]
    is the file system apart from the log file [twitch-recorder.log] of
    the working directory; [w_logfile] holds the records that the file
    handler of the root logger has appended to that file, and is [None]
    as long as the root logger has no file handler.  The post to the
    webhook returns, or it raises (no route to the host, an address that
    is no URL, ...). *)
Record World : Type := {
  w_fs : gmap path node;
  w_logfile : option (list (loglevel * logmsg));
  w_get : nat → get_outcome;
  w_token : nat → result pystr;
  w_webhook : nat → result unit;
  w_streamlink : nat → call_outcome;
  w_ffmpeg : nat → call_outcome;
  w_now : nat → pystr;
  w_utcnow : nat → pystr;
  w_trace : list event
}.

Definition set_fs (fs : gmap path node) (w : World) : World :=
  {| w_fs := fs; w_logfile := w_logfile w; w_get := w_get w;
     w_token := w_token w; w_webhook := w_webhook w;
     w_streamlink := w_streamlink w; w_ffmpeg := w_ffmpeg w;
     w_now := w_now w; w_utcnow := w_utcnow w; w_trace := w_trace w |}.

Definition emit (e : event) (w : World) : World :=
  {| w_fs := w_fs w; w_logfile := w_logfile w; w_get := w_get w;
     w_token := w_token w; w_webhook := w_webhook w;
     w_streamlink := w_streamlink w; w_ffmpeg := w_ffmpeg w;
     w_now := w_now w; w_utcnow := w_utcnow w; w_trace := w_trace w ++ [e] |}.

(** A record handed to the root logger: the call is kept in the trace,
    and the file handler, when there is one, appends the record to the
    log file. *)
Definition log_record (level : loglevel) (m : logmsg) (w : World) : World :=
  {| w_fs := w_fs w;
     w_logfile := (λ records, records ++ [(level, m)]) <$> w_logfile w;
     w_get := w_get w; w_token := w_token w; w_webhook := w_webhook w;
     w_streamlink := w_streamlink w; w_ffmpeg := w_ffmpeg w;
     w_now := w_now w; w_utcnow := w_utcnow w;
     w_trace := w_trace w ++ [ELog level m] |}.

(** [logging.basicConfig(filename="twitch-recorder.log", ...)] on a root
    logger without handlers opens the log file for appending, which
    creates it when it is not there. *)
Definition open_logfile (w : World) : World :=
  {| w_fs := w_fs w; w_logfile := Some (default [] (w_logfile w));
     w_get := w_get w; w_token := w_token w; w_webhook := w_webhook w;
     w_streamlink := w_streamlink w; w_ffmpeg := w_ffmpeg w;
     w_now := w_now w; w_utcnow := w_utcnow w; w_trace := w_trace w |}.

Definition pop_get (w : World) : get_outcome * World :=
  (w_get w 0,
   {| w_fs := w_fs w; w_logfile := w_logfile w;
      w_get := λ n, w_get w (S n); w_token := w_token w;
      w_webhook := w_webhook w;
      w_streamlink := w_streamlink w; w_ffmpeg := w_ffmpeg w;
      w_now := w_now w; w_utcnow := w_utcnow w; w_trace := w_trace w |}).

Definition pop_token (w : World) : result pystr * World :=
  (w_token w 0,
   {| w_fs := w_fs w; w_logfile := w_logfile w; w_get := w_get w;
      w_token := λ n, w_token w (S n); w_webhook := w_webhook w;
      w_streamlink := w_streamlink w; w_ffmpeg := w_ffmpeg w;
      w_now := w_now w; w_utcnow := w_utcnow w; w_trace := w_trace w |}).

Definition pop_webhook (w : World) : result unit * World :=
  (w_webhook w 0,
   {| w_fs := w_fs w; w_logfile := w_logfile w; w_get := w_get w;
      w_token := w_token w; w_webhook := λ n, w_webhook w (S n);
      w_streamlink := w_streamlink w; w_ffmpeg := w_ffmpeg w;
      w_now := w_now w; w_utcnow := w_utcnow w; w_trace := w_trace w |}).

Definition pop_streamlink (w : World) : call_outcome * World :=
  (w_streamlink w 0,
   {| w_fs := w_fs w; w_logfile := w_logfile w; w_get := w_get w;
      w_token := w_token w; w_webhook := w_webhook w;
      w_streamlink := λ n, w_streamlink w (S n); w_ffmpeg := w_ffmpeg w;
      w_now := w_now w; w_utcnow := w_utcnow w; w_trace := w_trace w |}).

Definition pop_ffmpeg (w : World) : call_outcome * World :=
  (w_ffmpeg w 0,
   {| w_fs := w_fs w; w_logfile := w_logfile w; w_get := w_get w;
      w_token := w_token w; w_webhook := w_webhook w;
      w_streamlink := w_streamlink w; w_ffmpeg := λ n, w_ffmpeg w (S n);
      w_now := w_now w; w_utcnow := w_utcnow w; w_trace := w_trace w |}).

Definition pop_now (w : World) : pystr * World :=
  (w_now w 0,
   {| w_fs := w_fs w; w_logfile := w_logfile w; w_get := w_get w;
      w_token := w_token w; w_webhook := w_webhook w;
      w_streamlink := w_streamlink w; w_ffmpeg := w_ffmpeg w;
      w_now := λ n, w_now w (S n); w_utcnow := w_utcnow w;
      w_trace := w_trace w |}).

Definition pop_utcnow (w : World) : pystr * World :=
  (w_utcnow w 0,
   {| w_fs := w_fs w; w_logfile := w_logfile w; w_get := w_get w;
      w_token := w_token w; w_webhook := w_webhook w;
      w_streamlink := w_streamlink w; w_ffmpeg := w_ffmpeg w;
      w_now := w_now w; w_utcnow := λ n, w_utcnow w (S n);
      w_trace := w_trace w |}).

(** ** The recorder object *)

Inductive TwitchResponseStatus : Type :=
| ONLINE
| OFFLINE
| NOT_FOUND
| UNAUTHORIZED
| ERROR.

Record TwitchRecorder : Type := {
  ffmpeg_path : pystr;
  disable_ffmpeg : bool;
  refresh : nat;
  root_path : path;
  username : pystr;
  quality : pystr;
  client_id : pystr;
  client_secret : pystr;
  token_url : pystr;
  url : pystr;
  access_token : pystr;
  stream_start_time : option pystr;
  discord_webhook_url : pystr
}.

Definition set_access_token (t : pystr) (self : TwitchRecorder) : TwitchRecorder :=
  {| ffmpeg_path := ffmpeg_path self; disable_ffmpeg := disable_ffmpeg self;
     refresh := refresh self; root_path := root_path self;
     username := username self; quality := quality self;
     client_id := client_id self; client_secret := client_secret self;
     token_url := token_url self; url := url self;
     access_token := t; stream_start_time := stream_start_time self;
     discord_webhook_url := discord_webhook_url self |}.

Definition set_stream_start_time (t : option pystr) (self : TwitchRecorder)
  : TwitchRecorder :=
  {| ffmpeg_path := ffmpeg_path self; disable_ffmpeg := disable_ffmpeg self;
     refresh := refresh self; root_path := root_path self;
     username := username self; quality := quality self;
     client_id := client_id self; client_secret := client_secret self;
     token_url := token_url self; url := url self;
     access_token := access_token self; stream_start_time := t;
     discord_webhook_url := discord_webhook_url self |}.

(** ** The monad of methods *)

Definition M (A : Type) : Type :=
  TwitchRecorder → World → result A * TwitchRecorder * World.

Definition ret {A} (a : A) : M A := λ self w, (Ret a, self, w).

Definition bind {A B} (m : M A) (k : A → M B) : M B := λ self w,
  match m self w with
  | (Ret a, self', w') => k a self' w'
  | (Raise e, self', w') => (Raise e, self', w')
  end.

Definition raise {A} (e : exn) : M A := λ self w, (Raise e, self, w).

(** [try: body  except <caught> as e: handler e] *)
Definition try_except {A} (body : M A) (caught : exn → bool) (handler : exn → M A)
  : M A := λ self w,
  match body self w with
  | (Ret a, self', w') => (Ret a, self', w')
  | (Raise e, self', w') =>
      if caught e then handler e self' w' else (Raise e, self', w')
  end.

Definition lift {A} (r : result A) : M A := λ self w, (r, self, w).

Definition get_self : M TwitchRecorder := λ self w, (Ret self, self, w).
Definition put_self (s : TwitchRecorder) : M unit := λ _ w, (Ret (), s, w).
Definition get_world : M World := λ self w, (Ret w, self, w).
Definition tell (e : event) : M unit := λ self w, (Ret (), self, emit e w).
Definition ask {A} (pop : World → A * World) : M A := λ self w,
  let '(a, w') := pop w in (Ret a, self, w').
Definition fs_op {A} (op : gmap path node → result A * gmap path node) : M A :=
  λ self w, let '(r, fs') := op (w_fs w) in (r, self, set_fs fs' w).

#[export] Instance M_ret : MRet M := @ret.
#[export] Instance M_bind : MBind M := λ A B k m, bind m k.

Fixpoint for_each {A} (l : list A) (body : A → M unit) : M unit :=
  match l with
  | [] => ret ()
  | x :: l' => body x ;; for_each l' body
  end.

(** [logging.info] and [logging.error]; the logging library lets no
    exception out. *)
Definition logging_info (m : logmsg) : M unit :=
  λ self w, (Ret (), self, log_record INFO m w).
Definition logging_error (m : logmsg) : M unit :=
  λ self w, (Ret (), self, log_record ERROR_LEVEL m w).
Definition time_sleep (seconds : nat) : M unit := tell (ESleep seconds).
Definition sys_exit : M unit := tell ESysExit ;; raise SystemExit.

(** ** The [requests] library *)

(** [Response.ok], which is also the truth value of a response object
    ([Response.__bool__]): false exactly when [raise_for_status] would
    raise, that is for the status codes 400 to 599. *)
Definition response_ok (status_code : nat) : bool :=
  negb ((400 <=? status_code) && (status_code <? 600)).

(** [r.raise_for_status()]: the [HTTPError] carries the response. *)
Definition raise_for_status (status_code : nat) : M unit :=
  if response_ok status_code then ret ()
  else raise (RequestException (Some status_code)).

(** ** Characters kept in a file name *)

(** [str.isalnum] on the code points below 256. *)
Definition latin1_isalnum (c : N) : bool :=
  ((48 <=? c) && (c <=? 57) || (65 <=? c) && (c <=? 90)
   || (97 <=? c) && (c <=? 122)
   || (c =? 170) || (c =? 178) || (c =? 179) || (c =? 181)
   || (c =? 185) || (c =? 186) || (188 <=? c) && (c <=? 190)
   || (192 <=? c) && (c <=? 214) || (216 <=? c) && (c <=? 246)
   || (248 <=? c) && (c <=? 255))%N.

(** The class [[A-Za-z0-9 _.-]]. *)
Definition safe_ascii (c : N) : bool :=
  ((48 <=? c) && (c <=? 57) || (65 <=? c) && (c <=? 90)
   || (97 <=? c) && (c <=? 122)
   || (c =? 32) || (c =? 45) || (c =? 95) || (c =? 46))%N.

Section Recorder.

(** [str.isalnum] on the code points from 256 on, as the interpreter's
    Unicode database has it. *)
Variable unicode_isalnum : N → bool.

Definition isalnum (c : N) : bool :=
  if (c <? 256)%N then latin1_isalnum c else unicode_isalnum c.

(** [x.isalnum() or x in [" ", "-", "_", "."]] *)
Definition keep_char (x : N) : bool :=
  isalnum x || bool_decide (x ∈ [32; 45; 95; 46]%N).

(** ["".join(x for x in filename if ...)] *)
Definition clean_filename (filename : pystr) : pystr :=
  List.filter keep_char filename.

(** [channels = info["data"]] and [channel = next(iter(channels), None)]:
    the channel record the controller takes from the response. *)
Definition first_channel (info : pyval) : result pyval :=
  match subscript info (py "data") with
  | Ret channels => next_iter channels
  | Raise e => Raise e
  end.

(** The name of the capture file, [now] being
    [datetime.datetime.now().strftime("%y%m%d %Hh%Mm%Ss")]. *)
Definition capture_filename (user now : pystr) (channel : pyval) : result pystr :=
  match dict_get channel (py "title") with
  | Ret title =>
      match str_add (user ++ py " - " ++ now ++ py " - ") title with
      | Ret filename => Ret (clean_filename (filename ++ py ".mp4"))
      | Raise e => Raise e
      end
  | Raise e => Raise e
  end.

(** ** Methods of [TwitchRecorder] *)

Definition modify_self (f : TwitchRecorder → TwitchRecorder) : M unit :=
  self ← get_self; put_self (f self).

Definition fetch_access_token : M pystr :=
  self ← get_self;
  tell (ETokenPost (token_url self));;
  token ← ask pop_token;
  lift token.

(** [requests.post(self.discord_webhook_url, json=payload)]: the response
    is dropped, an exception of the request is not caught. *)
Definition send_discord_message (title description : pystr) (status_color : Z)
  : M unit :=
  self ← get_self;
  tell (EWebhook (discord_webhook_url self) title description status_color);;
  posted ← ask pop_webhook;
  lift posted.

Definition stream_for (user : pystr) : pystr :=
  py "Stream for [" ++ user ++ py "](https://twitch.tv/" ++ user ++ py ")".

Definition send_stream_start_notification : M unit :=
  self ← get_self;
  let message := stream_for (username self) ++ py " has started!" in
  send_discord_message (py "Stream Started") message 65280.

Definition send_stream_stop_notification : M unit :=
  self ← get_self;
  let message := stream_for (username self) ++ py " has stopped." in
  send_discord_message (py "Stream Stopped") message 16711680.

Definition send_stream_failure_notification (error_message : pystr) : M unit :=
  self ← get_self;
  let message := stream_for (username self)
                 ++ py " has encountered an error:" ++ [10%N] ++ error_message in
  send_discord_message (py "Stream Error") message 16776960.

(** Truth value of [self.stream_start_time]. *)
Definition start_time_set (self : TwitchRecorder) : bool :=
  match stream_start_time self with
  | Some (_ :: _) => true
  | _ => false
  end.

(** The [except requests.exceptions.RequestException as e] clause of
    [check_user], run with the local variables [status] and [info] as
    they are when the exception arrives. *)
Definition except_RequestException (status : TwitchResponseStatus) (info : pyval)
    (e : exn) : M (TwitchResponseStatus * pyval) :=
  match e with
  | RequestException (Some status_code) =>
      if response_ok status_code then
        let status := if status_code =? 401 then UNAUTHORIZED else status in
        let status := if status_code =? 404 then NOT_FOUND else status in
        ret (status, info)
      else ret (status, info)
  | _ => ret (status, info)
  end.

Definition requests_get (url : pystr) (headers : list (pystr * pystr))
  : M (nat * result pyval) :=
  tell (EGet url headers);;
  o ← ask pop_get;
  match o with
  | GetRaises e => raise e
  | GetResponse status_code body => ret (status_code, body)
  end.

(** The two nested [try_except] are the single [try] of the source: the
    outer one covers the statements up to [info = r.json()], the inner
    one those after it, where [info] is bound. Nothing can raise once
    [status] is [ONLINE]. *)
Definition check_user : M (TwitchResponseStatus * pyval) :=
  let info := PNone in
  let status := ERROR in
  self ← get_self;
  try_except
    (let headers := [(py "Client-ID", client_id self);
                     (py "Authorization", py "Bearer " ++ access_token self)] in
     r ← requests_get (url self ++ py "?user_login=" ++ username self) headers;
     raise_for_status r.1;;
     info ← lift r.2;
     try_except
       (offline ← match info with
                  | PNone => ret true
                  | _ => data ← lift (subscript info (py "data"));
                         ret (negb (truthy data))
                  end;
        if (offline : bool) then
          let status := OFFLINE in
          ret (status, info)
        else
          let status := ONLINE in
          self ← get_self;
          (if negb (start_time_set self)
           then today ← ask pop_utcnow;
                put_self (set_stream_start_time (Some today) self)
           else ret ());;
          ret (status, info))
       is_RequestException (except_RequestException status info))
    is_RequestException (except_RequestException status info).

Definition subprocess_call_ffmpeg (input output : path) : M Z :=
  self ← get_self;
  tell (EFfmpeg (ffmpeg_path self) input output);;
  o ← ask pop_ffmpeg;
  match o with
  | CallRaises e => raise (OSError e)
  | CallExit returncode written =>
      match written with
      | Some content => fs_op (λ fs, (Ret (), <[output := File content]> fs))
      | None => ret ()
      end;;
      ret returncode
  end.

Definition subprocess_call_streamlink (output : path) : M Z :=
  self ← get_self;
  tell (EStreamlink [py "streamlink"; py "--twitch-disable-ads";
                     py "twitch.tv/" ++ username self; quality self; py "-o"]
          output);;
  o ← ask pop_streamlink;
  match o with
  | CallRaises e => raise (OSError e)
  | CallExit returncode written =>
      match written with
      | Some content => fs_op (λ fs, (Ret (), <[output := File content]> fs))
      | None => ret ()
      end;;
      ret returncode
  end.

Definition ffmpeg_copy_and_fix_errors (recorded_filename processed_filename : path)
  : M unit :=
  try_except
    (subprocess_call_ffmpeg recorded_filename processed_filename;;
     fs_op (λ fs, os_remove fs recorded_filename))
    is_Exception
    (λ e, logging_error (MsgException e)).

Definition process_recorded_file (recorded_filename processed_filename : path)
  : M unit :=
  self ← get_self;
  if disable_ffmpeg self then
    logging_info (MsgMoving recorded_filename);;
    fs_op (λ fs, shutil_move fs recorded_filename processed_filename)
  else
    logging_info (MsgFixing recorded_filename);;
    ffmpeg_copy_and_fix_errors recorded_filename processed_filename.

(** The [try] block of [process_recorded_files]. *)
Definition process_listed_files (recorded_path processed_path : path) : M unit :=
  try_except
    (w ← get_world;
     names ← lift (os_listdir (w_fs w) recorded_path);
     let video_list :=
       List.filter (λ f, os_path_isfile (w_fs w) (os_path_join recorded_path [f]))
         names in
     (if 0 <? length video_list then logging_info MsgPreviouslyRecorded
      else ret ());;
     for_each video_list (λ f,
       let recorded_filename := os_path_join recorded_path [f] in
       let processed_filename := os_path_join processed_path [f] in
       process_recorded_file recorded_filename processed_filename))
    is_Exception
    (λ e, logging_error (MsgException e)).

Definition process_recorded_files : M unit :=
  self ← get_self;
  let recorded_path := os_path_join (root_path self) [py "recorded"; username self] in
  let processed_path := os_path_join (root_path self) [py "processed"; username self] in
  w ← get_world;
  (if negb (os_path_isdir (w_fs w) recorded_path)
   then fs_op (λ fs, os_makedirs fs recorded_path) else ret ());;
  w ← get_world;
  (if negb (os_path_isdir (w_fs w) processed_path)
   then fs_op (λ fs, os_makedirs fs processed_path) else ret ());;
  process_listed_files recorded_path processed_path.

(** The body of the [while True] loop after
    [status, info = self.check_user()]. *)
Definition on_status (status : TwitchResponseStatus) (info : pyval) : M unit :=
  self ← get_self;
  match status with
  | NOT_FOUND =>
      logging_error MsgUserNotFound;;
      time_sleep (refresh self)
  | ERROR =>
      let error_message := py "Unexpected error. Restarting script." in
      logging_error (MsgText error_message);;
      send_stream_failure_notification error_message;;
      time_sleep 2;;
      sys_exit
  | OFFLINE =>
      (if start_time_set self
       then send_stream_stop_notification;;
            modify_self (set_stream_start_time None)
       else ret ());;
      logging_info (MsgOffline (username self) (refresh self));;
      time_sleep (refresh self)
  | UNAUTHORIZED =>
      let error_message :=
        py "Unauthorized, will attempt to log back in immediately" in
      logging_info (MsgText error_message);;
      token ← fetch_access_token;
      modify_self (set_access_token token);;
      send_stream_failure_notification error_message
  | ONLINE =>
      send_stream_start_notification;;
      logging_info (MsgOnline (username self));;
      channel ← lift (first_channel info);
      now ← ask pop_now;
      filename ← lift (capture_filename (username self) now channel);
      let recorded_filename :=
        os_path_join (root_path self) [py "recorded"; username self; filename] in
      let processed_filename :=
        os_path_join (root_path self) [py "processed"; username self; filename] in
      subprocess_call_streamlink recorded_filename;;
      logging_info MsgRecordingDone;;
      w ← get_world;
      (if os_path_exists (w_fs w) recorded_filename
       then process_recorded_file recorded_filename processed_filename
       else logging_info MsgSkipFixing);;
      logging_info MsgProcessingDone;;
      time_sleep (refresh self)
  end.

(** [check_stream_continuously], unrolled [fuel] times.  The loop has no
    exit of its own: [Ret ()] means that it is still running after
    [fuel] rounds, [Raise e] that the exception [e] ended the thread. *)
Fixpoint check_stream_continuously (fuel : nat) : M unit :=
  match fuel with
  | 0 => ret ()
  | S fuel' =>
      r ← check_user;
      on_status r.1 r.2;;
      check_stream_continuously fuel'
  end.

(** [run]: [stream_check_thread.start()] hands
    [check_stream_continuously] to a new thread, which runs from then on
    beside the caller; the caller goes on with the sweep. *)
Definition run : M unit :=
  tell EThreadStart;;
  process_recorded_files.

End Recorder.

(** ** Construction ([__init__]) *)

Record Config : Type := {
  cfg_root_path : path;
  cfg_username : pystr;
  cfg_client_id : pystr;
  cfg_client_secret : pystr;
  cfg_discord_webhook_url : pystr
}.

Definition init (config : Config) (w : World) : result TwitchRecorder * World :=
  let self :=
    {| ffmpeg_path := py "ffmpeg"; disable_ffmpeg := false; refresh := 15;
       root_path := cfg_root_path config;
       username := cfg_username config; quality := py "best";
       client_id := cfg_client_id config;
       client_secret := cfg_client_secret config;
       token_url := py "https://id.twitch.tv/oauth2/token?client_id="
                    ++ cfg_client_id config ++ py "&client_secret="
                    ++ cfg_client_secret config
                    ++ py "&grant_type=client_credentials";
       url := py "https://api.twitch.tv/helix/streams";
       access_token := []; stream_start_time := None;
       discord_webhook_url := cfg_discord_webhook_url config |} in
  match fetch_access_token self w with
  | (Ret token, self', w') => (Ret (set_access_token token self'), w')
  | (Raise e, _, w') => (Raise e, w')
  end.

(** ** The command line ([main]) *)

(** The root logger: the number of its handlers and its level. *)
Record Logging : Type := { root_handlers : nat; root_level : Z }.

(** At the start of the interpreter: no handler, level WARNING. *)
Definition logging_start : Logging := {| root_handlers := 0; root_level := 30 |}.

(** [logging.basicConfig(level=...)], with or without [filename=...], on
    the root logger: one handler is added and the level set when the root
    logger has no handler; otherwise nothing is done. *)
Definition logging_basicConfig (level : Z) (l : Logging) : Logging :=
  match root_handlers l with
  | 0 => {| root_handlers := 1; root_level := level |}
  | _ => l
  end.

(** [logging.getLogger().addHandler(...)] *)
Definition logging_addHandler (l : Logging) : Logging :=
  {| root_handlers := S (root_handlers l); root_level := root_level l |}.

(** [getattr(logging, name, None)] where it is an [int]: the integer
    attributes of the [logging] module. *)
Definition logging_level_named (name : pystr) : option Z :=
  if bool_decide (name = py "CRITICAL") then Some 50%Z
  else if bool_decide (name = py "FATAL") then Some 50%Z
  else if bool_decide (name = py "ERROR") then Some 40%Z
  else if bool_decide (name = py "WARNING") then Some 30%Z
  else if bool_decide (name = py "WARN") then Some 30%Z
  else if bool_decide (name = py "INFO") then Some 20%Z
  else if bool_decide (name = py "DEBUG") then Some 10%Z
  else if bool_decide (name = py "NOTSET") then Some 0%Z
  else None.

Definition usage_message : pystr :=
  py "twitch-recorder.py -u <username> -q <quality>".

Definition set_username (u : pystr) (self : TwitchRecorder) : TwitchRecorder :=
  {| ffmpeg_path := ffmpeg_path self; disable_ffmpeg := disable_ffmpeg self;
     refresh := refresh self; root_path := root_path self;
     username := u; quality := quality self;
     client_id := client_id self; client_secret := client_secret self;
     token_url := token_url self; url := url self;
     access_token := access_token self;
     stream_start_time := stream_start_time self;
     discord_webhook_url := discord_webhook_url self |}.

Definition set_quality (q : pystr) (self : TwitchRecorder) : TwitchRecorder :=
  {| ffmpeg_path := ffmpeg_path self; disable_ffmpeg := disable_ffmpeg self;
     refresh := refresh self; root_path := root_path self;
     username := username self; quality := q;
     client_id := client_id self; client_secret := client_secret self;
     token_url := token_url self; url := url self;
     access_token := access_token self;
     stream_start_time := stream_start_time self;
     discord_webhook_url := discord_webhook_url self |}.

Definition set_disable_ffmpeg (b : bool) (self : TwitchRecorder) : TwitchRecorder :=
  {| ffmpeg_path := ffmpeg_path self; disable_ffmpeg := b;
     refresh := refresh self; root_path := root_path self;
     username := username self; quality := quality self;
     client_id := client_id self; client_secret := client_secret self;
     token_url := token_url self; url := url self;
     access_token := access_token self;
     stream_start_time := stream_start_time self;
     discord_webhook_url := discord_webhook_url self |}.

(** How [main] ends: it returns (the interpreter then waits for the
    polling thread), it leaves through [sys.exit] with a status, or an
    exception comes out of it. *)
Inductive main_end : Type :=
| MainReturns
| MainExits (status : Z)
| MainRaises (e : exn).

(** What [main] works on: the recorder, the root logger, the lines
    printed and the world. *)
Record MainState : Type := {
  m_recorder : TwitchRecorder;
  m_logging : Logging;
  m_stdout : list pystr;
  m_world : World
}.

(** What [main] leaves: how it ended, and the state it had come to; there
    is no recorder when the constructor has raised. *)
Record MainResult : Type := {
  r_end : main_end;
  r_recorder : option TwitchRecorder;
  r_logging : Logging;
  r_stdout : list pystr;
  r_world : World
}.

Definition main_ends (ended : main_end) (st : MainState) : MainResult :=
  {| r_end := ended; r_recorder := Some (m_recorder st);
     r_logging := m_logging st; r_stdout := m_stdout st;
     r_world := m_world st |}.

Definition print (line : pystr) (st : MainState) : MainState :=
  {| m_recorder := m_recorder st; m_logging := m_logging st;
     m_stdout := m_stdout st ++ [line]; m_world := m_world st |}.

Definition logging_info_main (message : pystr) (st : MainState) : MainState :=
  {| m_recorder := m_recorder st; m_logging := m_logging st;
     m_stdout := m_stdout st;
     m_world := log_record INFO (MsgText message) (m_world st) |}.

Definition on_recorder (f : TwitchRecorder → TwitchRecorder) (st : MainState)
  : MainState :=
  {| m_recorder := f (m_recorder st); m_logging := m_logging st;
     m_stdout := m_stdout st; m_world := m_world st |}.

Definition on_logging (f : Logging → Logging) (st : MainState) : MainState :=
  {| m_recorder := m_recorder st; m_logging := f (m_logging st);
     m_stdout := m_stdout st; m_world := m_world st |}.

Section Main.

(** [str.upper] *)
Variable str_upper : pystr → pystr.

(** One round of [for opt, arg in opts]; [Some] when [main] ends there. *)
Definition apply_opt (opt arg : pystr) (st : MainState)
  : option main_end * MainState :=
  if bool_decide (opt = py "-h") then
    (Some (MainExits 0), print usage_message st)
  else if bool_decide (opt ∈ [py "-u"; py "--username"]) then
    (None, on_recorder (set_username arg) st)
  else if bool_decide (opt ∈ [py "-q"; py "--quality"]) then
    (None, on_recorder (set_quality arg) st)
  else if bool_decide (opt ∈ [py "-l"; py "--log"; py "--logging"]) then
    match logging_level_named (str_upper arg) with
    | None => (Some (MainRaises ValueError), st)
    | Some logging_level =>
        (None,
         logging_info_main (py "logging configured to " ++ str_upper arg)
           (on_logging (logging_basicConfig logging_level) st))
    end
  else if bool_decide (opt = py "--disable-ffmpeg") then
    (None,
     logging_info_main (py "ffmpeg disabled")
       (on_recorder (set_disable_ffmpeg true) st))
  else (None, st).

Fixpoint apply_opts (opts : list (pystr * pystr)) (st : MainState)
  : option main_end * MainState :=
  match opts with
  | [] => (None, st)
  | (opt, arg) :: opts' =>
      match apply_opt opt arg st with
      | (None, st') => apply_opts opts' st'
      | (Some ended, st') => (Some ended, st')
      end
  end.

(** [main(argv)]; [parsed] is what [getopt.getopt] makes of [argv]: the
    options with their arguments, or nothing when it raises
    [GetoptError]. The first [logging.basicConfig] opens the log file,
    which creates it; opening is taken to succeed (the name is free or
    that of a regular file that the process may write). *)
Definition main (config : Config) (parsed : option (list (pystr * pystr)))
    (w : World) : MainResult :=
  match init config w with
  | (Raise e, w') =>
      {| r_end := MainRaises e; r_recorder := None; r_logging := logging_start;
         r_stdout := []; r_world := w' |}
  | (Ret twitch_recorder, w') =>
      let st := {| m_recorder := twitch_recorder;
                   m_logging := logging_addHandler
                                  (logging_basicConfig 20 logging_start);
                   m_stdout := []; m_world := open_logfile w' |} in
      match parsed with
      | None => main_ends (MainExits 2) (print usage_message st)
      | Some opts =>
          match apply_opts opts st with
          | (Some ended, st') => main_ends ended st'
          | (None, st') =>
              match run (m_recorder st') (m_world st') with
              | (r, self', w'') =>
                  {| r_end := match r with
                              | Ret _ => MainReturns
                              | Raise e => MainRaises e
                              end;
                     r_recorder := Some self'; r_logging := m_logging st';
                     r_stdout := m_stdout st'; r_world := w'' |}
              end
          end
      end
  end.

End Main.

(** ** Sample data *)

(** A classification of the code points from 256 on that knows the
    letters of Latin Extended-A and -B only. *)
Definition sample_unicode (c : N) : bool := (c <? 592)%N.

Definition sample_recorder : TwitchRecorder :=
  {| ffmpeg_path := py "ffmpeg"; disable_ffmpeg := false; refresh := 15;
     root_path := [py "."; py "downloads"];
     username := py "dawok"; quality := py "best";
     client_id := py "id"; client_secret := py "secret";
     token_url := py "https://id.twitch.tv/oauth2/token?client_id=id";
     url := py "https://api.twitch.tv/helix/streams";
     access_token := py "stale"; stream_start_time := None;
     discord_webhook_url := py "https://discord.example/hook" |}.

Definition moving_recorder : TwitchRecorder :=
  {| ffmpeg_path := py "ffmpeg"; disable_ffmpeg := true; refresh := 15;
     root_path := [py "."; py "downloads"];
     username := py "dawok"; quality := py "best";
     client_id := py "id"; client_secret := py "secret";
     token_url := py "https://id.twitch.tv/oauth2/token?client_id=id";
     url := py "https://api.twitch.tv/helix/streams";
     access_token := py "stale"; stream_start_time := None;
     discord_webhook_url := py "https://discord.example/hook" |}.

(** A world with the given file system, answer to every status request
    and behaviour of every transcoder run; token requests and posts to
    the webhook succeed, and the root logger has no file handler. *)
Definition sample_world (fs : gmap path node) (answer : get_outcome)
    (transcoder : call_outcome) : World :=
  {| w_fs := fs; w_logfile := None; w_get := λ _, answer;
     w_token := λ _, Ret (py "fresh"); w_webhook := λ _, Ret ();
     w_streamlink := λ _, CallExit 0 None; w_ffmpeg := λ _, transcoder;
     w_now := λ _, py "250101 12h00m00s"; w_utcnow := λ _, py "20250101";
     w_trace := [] |}.

(** The same with the identity endpoint answering 503. *)
Definition world_without_identity (fs : gmap path node) (answer : get_outcome)
  : World :=
  {| w_fs := fs; w_logfile := None; w_get := λ _, answer;
     w_token := λ _, Raise (RequestException (Some 503));
     w_webhook := λ _, Ret ();
     w_streamlink := λ _, CallExit 0 None; w_ffmpeg := λ _, CallExit 0 None;
     w_now := λ _, py "250101 12h00m00s"; w_utcnow := λ _, py "20250101";
     w_trace := [] |}.

(** The webhook cannot be reached: every post raises, as it does with the
    empty address of the configuration as it is shipped. *)
Definition world_without_webhook (fs : gmap path node) (answer : get_outcome)
  : World :=
  {| w_fs := fs; w_logfile := None; w_get := λ _, answer;
     w_token := λ _, Ret (py "fresh");
     w_webhook := λ _, Raise (RequestException None);
     w_streamlink := λ _, CallExit 0 None; w_ffmpeg := λ _, CallExit 0 None;
     w_now := λ _, py "250101 12h00m00s"; w_utcnow := λ _, py "20250101";
     w_trace := [] |}.

Definition stream_record (title : string) : pyval :=
  PDict [(py "id", PStr (py "41")); (py "title", PStr (py title))].

Definition raw_dir : path := [py "."; py "downloads"; py "recorded"; py "dawok"].
Definition done_dir : path := [py "."; py "downloads"; py "processed"; py "dawok"].

(** Both directories exist; one capture is left in the raw one. *)
Definition leftover_fs : gmap path node :=
  <[raw_dir ++ [py "a.mp4"] := File [1; 2; 3]%N]>
    (<[raw_dir := Dir true]> (<[done_dir := Dir true]> ∅)).

(** The processed directory is read-only. *)
Definition readonly_fs : gmap path node :=
  <[raw_dir ++ [py "a.mp4"] := File [1; 2; 3]%N]>
    (<[raw_dir := Dir true]> (<[done_dir := Dir false]> ∅)).


(** * Vocabulary of the properties *)

(** ** Events *)

(** The events that a computation added to the trace. *)
Definition new_events (before after : World) : list event :=
  drop (length (w_trace before)) (w_trace after).

Definition is_token_post (e : event) : bool :=
  match e with ETokenPost _ => true | _ => false end.

(** A notification of the Error kind: the embed titled "Stream Error". *)
Definition is_error_notification (e : event) : bool :=
  match e with
  | EWebhook _ title _ _ => bool_decide (title = py "Stream Error")
  | _ => false
  end.

Definition is_status_check (e : event) : bool :=
  match e with EGet _ _ => true | _ => false end.

Definition error_notification (self : TwitchRecorder) (error_message : pystr)
  : event :=
  EWebhook (discord_webhook_url self) (py "Stream Error")
    (stream_for (username self) ++ py " has encountered an error:" ++ [10%N]
     ++ error_message)
    16776960.

(** The request that a status check sends. *)
Definition status_request (self : TwitchRecorder) : event :=
  EGet (url self ++ py "?user_login=" ++ username self)
    [(py "Client-ID", client_id self);
     (py "Authorization", py "Bearer " ++ access_token self)].

(** The events with which the controller answers an ONLINE status, up to
    the start of the capture. *)
Definition online_prefix (self : TwitchRecorder) (filename : pystr) : list event :=
  [ EWebhook (discord_webhook_url self) (py "Stream Started")
      (stream_for (username self) ++ py " has started!") 65280;
    ELog INFO (MsgOnline (username self));
    EStreamlink [py "streamlink"; py "--twitch-disable-ads";
                 py "twitch.tv/" ++ username self; quality self; py "-o"]
      (os_path_join (root_path self) [py "recorded"; username self; filename]) ].

(** The files handed to the post-processor: [process_recorded_file] logs
    each one when it is entered. *)
Definition handed_over (events : list event) : list path :=
  omap (λ e, match e with
             | ELog INFO (MsgFixing p) | ELog INFO (MsgMoving p) => Some p
             | _ => None
             end) events.

(** ** File systems *)



(** ** Claims that do not hold as they are written *)

(** The claim as it is written: cleaning is idempotent and its output
    lies in [[A-Za-z0-9 _.-]]. *)
Definition clean_filename_claim (unicode : N → bool) (s : pystr) : Prop :=
  clean_filename unicode (clean_filename unicode s) = clean_filename unicode s
  ∧ Forall (λ c, safe_ascii c = true) (clean_filename unicode s).

Definition is_backoff_sleep (e : event) : bool :=
  match e with ESleep 2 => true | _ => false end.

(** The claim as it is written, for the round that follows a failed
    status request: one Error notification, the backoff sleep, the end of
    the loop in that round, and no further status check. *)
Definition error_status_claim (unicode : N → bool) (self : TwitchRecorder)
    (w : World) : Prop :=
  let checked := check_user self w in
  let out := check_stream_continuously unicode 1 self w in
  let events := new_events checked.2 out.2 in
  checked.1.1 = Ret (ERROR, PNone) →
  length (List.filter is_error_notification events) = 1
  ∧ length (List.filter is_backoff_sleep events) = 1
  ∧ (∃ e, out.1.1 = Raise e)
  ∧ List.filter is_status_check events = [].



(** ** Tactics *)

Arguments except_RequestException : simpl never.

Ltac unfold_monad :=
  unfold try_except, lift, ask, tell, get_self, put_self, get_world, raise,
    fs_op, mbind, M_bind, bind, mret, M_ret, ret in *.

Ltac unfold_check_user :=
  unfold check_user, requests_get, raise_for_status, pop_get, pop_utcnow in *;
  unfold_monad.

Ltac unfold_on_status :=
  unfold on_status, send_stream_start_notification, send_discord_message,
    subprocess_call_streamlink, process_recorded_file,
    ffmpeg_copy_and_fix_errors, subprocess_call_ffmpeg, logging_info,
    logging_error, time_sleep, pop_now, pop_webhook, pop_streamlink,
    pop_ffmpeg in *;
  unfold_monad.

Ltac unfold_process :=
  unfold process_recorded_file, ffmpeg_copy_and_fix_errors,
    subprocess_call_ffmpeg, logging_info, logging_error, pop_ffmpeg in *;
  unfold_monad.

Ltac unfold_loop :=
  unfold on_status, send_stream_failure_notification, send_discord_message,
    fetch_access_token, modify_self, sys_exit, logging_info, logging_error,
    time_sleep, pop_token, pop_webhook in *;
  unfold_monad.

(** ** Further vocabulary *)

(** What the loop never writes: every attribute of the recorder but
    [access_token] and [stream_start_time]. *)
Definition config_of (self : TwitchRecorder)
  : pystr * bool * nat * path * pystr * pystr * pystr * pystr * pystr * pystr
    * pystr :=
  (ffmpeg_path self, disable_ffmpeg self, refresh self, root_path self,
   username self, quality self, client_id self, client_secret self,
   token_url self, url self, discord_webhook_url self).

Definition stop_notification (self : TwitchRecorder) : event :=
  EWebhook (discord_webhook_url self) (py "Stream Stopped")
    (stream_for (username self) ++ py " has stopped.") 16711680.

Definition is_stop_notification (e : event) : bool :=
  match e with
  | EWebhook _ title _ _ => bool_decide (title = py "Stream Stopped")
  | _ => false
  end.

(** The status request that is [n] requests ahead is answered with an
    empty [data] array. *)
Definition offline_answer (o : get_outcome) : Prop :=
  ∃ code d, o = GetResponse code (Ret (PDict d))
            ∧ response_ok code = true
            ∧ dict_lookup (py "data") d = Some (PList []).

Definition recorded_file (self : TwitchRecorder) (filename : pystr) : path :=
  os_path_join (root_path self) [py "recorded"; username self; filename].

Definition processed_file (self : TwitchRecorder) (filename : pystr) : path :=
  os_path_join (root_path self) [py "processed"; username self; filename].

(** A name that [os.path.join] takes as one component of the path: it is
    not empty, holds no separator, and is neither [.] nor [..]. *)
Definition plain_name (name : pystr) : Prop :=
  name ≠ [] ∧ 47%N ∉ name ∧ name ≠ py "." ∧ name ≠ py "..".

(** The records that a list of events hands to the root logger. *)
Definition log_records (events : list event) : list (loglevel * logmsg) :=
  omap (λ e, match e with ELog level m => Some (level, m) | _ => None end)
    events.

(** The log file of [w] once the records of [events] have been appended
    to it, when the root logger has a file handler. *)
Definition logged (events : list event) (w : World)
  : option (list (loglevel * logmsg)) :=
  (λ records, records ++ log_records events) <$> w_logfile w.

(** The log file has only been appended to (or there is none). *)
Definition appended_to (before after : option (list (loglevel * logmsg)))
  : Prop :=
  ∃ records, after = (λ r, r ++ records) <$> before.

(** The world when the capture process has come to its end, but for what
    it has written: the Start notification has been posted, the clock
    and the outcome of the capture have been read. *)
Definition capture_world (self : TwitchRecorder) (filename : pystr) (w : World)
  : World :=
  {| w_fs := w_fs w;
     w_logfile := (λ records, records ++ [(INFO, MsgOnline (username self))])
                  <$> w_logfile w;
     w_get := w_get w; w_token := w_token w;
     w_webhook := λ n, w_webhook w (S n);
     w_streamlink := λ n, w_streamlink w (S n); w_ffmpeg := w_ffmpeg w;
     w_now := λ n, w_now w (S n); w_utcnow := w_utcnow w;
     w_trace := w_trace w ++ online_prefix self filename |}.

(** The statements of the ONLINE branch that follow the capture. *)
Definition after_capture (self : TwitchRecorder) (filename : pystr) : M unit :=
  logging_info MsgRecordingDone;;
  w ← get_world;
  (if os_path_exists (w_fs w) (recorded_file self filename)
   then process_recorded_file (recorded_file self filename)
          (processed_file self filename)
   else logging_info MsgSkipFixing);;
  logging_info MsgProcessingDone;;
  time_sleep (refresh self).

(** A world in which the channel is live with the title "Foo", with the
    given file system, outcome of every capture and of every transcoder
    run; the root logger writes to the log file, as it does under
    [main]. *)
Definition recording_world (fs : gmap path node)
    (capture transcoder : call_outcome) : World :=
  {| w_fs := fs; w_logfile := Some [];
     w_get := λ _, GetResponse 200
                     (Ret (PDict [(py "data", PList [stream_record "Foo"])]));
     w_token := λ _, Ret (py "fresh"); w_webhook := λ _, Ret ();
     w_streamlink := λ _, capture; w_ffmpeg := λ _, transcoder;
     w_now := λ _, py "250101 12h00m00s"; w_utcnow := λ _, py "20250101";
     w_trace := [] |}.

Definition foo_info : pyval := PDict [(py "data", PList [stream_record "Foo"])].
Definition foo_filename : pystr := py "dawok - 250101 12h00m00s - Foo.mp4".

(** The options at which [main] ends: [-h], and a log option whose
    argument names no level. *)
Definition stops_main (str_upper : pystr → pystr) (o : pystr * pystr) : Prop :=
  o.1 = py "-h"
  ∨ (o.1 ∈ [py "-l"; py "--log"; py "--logging"]
     ∧ logging_level_named (str_upper o.2) = None).

(** The argument of the last option of [opts] with one of [names]. *)
Definition last_arg (names : list pystr) (opts : list (pystr * pystr))
  : option pystr :=
  last (omap (λ o, if bool_decide (o.1 ∈ names) then Some o.2 else None) opts).

Definition has_flag (name : pystr) (opts : list (pystr * pystr)) : bool :=
  existsb (λ o, bool_decide (o.1 = name)) opts.

(** The address of the identity endpoint, as [__init__] builds it. *)
Definition token_url_of (config : Config) : pystr :=
  py "https://id.twitch.tv/oauth2/token?client_id=" ++ cfg_client_id config
  ++ py "&client_secret=" ++ cfg_client_secret config
  ++ py "&grant_type=client_credentials".


(** [str.upper] on ASCII text. *)
Definition ascii_upper (s : pystr) : pystr :=
  (λ c, if ((97 <=? c) && (c <=? 122))%N then (c - 32)%N else c) <$> s.

Definition sample_config : Config :=
  {| cfg_root_path := [py "."; py "downloads"]; cfg_username := py "dawok";
     cfg_client_id := py "id"; cfg_client_secret := py "secret";
     cfg_discord_webhook_url := py "https://discord.example/hook" |}.

(** The events that only the UNAUTHORIZED and NOT_FOUND branches of the
    loop produce: the token request, the log line that announces it and
    the "username not found" error. *)
Definition of_unreached_branch (e : event) : bool :=
  match e with
  | ETokenPost _ => true
  | ELog ERROR_LEVEL MsgUserNotFound => true
  | ELog INFO (MsgText message) =>
      bool_decide
        (message = py "Unauthorized, will attempt to log back in immediately")
  | _ => false
  end.

Definition start_notification (self : TwitchRecorder) : event :=
  EWebhook (discord_webhook_url self) (py "Stream Started")
    (stream_for (username self) ++ py " has started!") 65280.

Definition is_start_notification (e : event) : bool :=
  match e with
  | EWebhook _ title _ _ => bool_decide (title = py "Stream Started")
  | _ => false
  end.

(** What an ONLINE round does after the Start notification: it starts the
    capture and the transcoder, sleeps, and logs its steps. *)
Definition recording_event (e : event) : bool :=
  match e with
  | ELog _ (MsgText _ | MsgUserNotFound) => false
  | ELog _ _ | EStreamlink _ _ | EFfmpeg _ _ _ | ESleep _ => true
  | _ => false
  end.

(** The channel is live at the first status check and offline from the
    second on; the capture ends without a file. *)
Definition session_world : World :=
  {| w_fs := leftover_fs; w_logfile := Some [];
     w_get := λ n, match n with
                   | 0 => GetResponse 200 (Ret foo_info)
                   | _ => GetResponse 200 (Ret (PDict [(py "data", PList [])]))
                   end;
     w_token := λ _, Ret (py "fresh"); w_webhook := λ _, Ret ();
     w_streamlink := λ _, CallExit 0 None; w_ffmpeg := λ _, CallExit 0 None;
     w_now := λ _, py "250101 12h00m00s"; w_utcnow := λ _, py "20250101";
     w_trace := [] |}.

(** ** Further tactics *)

(** The names of the options are different strings. *)
Ltac different_names :=
  match goal with
  | H : py _ = py _ |- _ => by vm_compute in H
  | H : py _ ≠ py _ |- _ => by destruct H
  end.

Ltac option_cases :=
  repeat case_bool_decide; set_unfold; destruct_or?; subst;
  try different_names; try tauto.

Ltac goes_on :=
  repeat apply Forall_cons_2; try apply Forall_nil_2;
  unfold stops_main; cbn [fst snd];
  (intros [Hh | [Hl Hlevel]];
   [ by vm_compute in Hh
   | first [ by vm_compute in Hlevel
           | set_unfold; destruct_or?; different_names || done ] ]).

(** The trace has grown by the events written out, all of them events of
    a recording. *)
Ltac trace_grows :=
  rewrite <- ?app_assoc; eexists; split; [reflexivity | done].

(** * Properties *)

(** ** The status classifier *)

(** A response object is false when its status is 401 or 404. *)
Lemma response_401_404_false (code : nat) :
  code = 401 ∨ code = 404 → response_ok code = false.
Proof. by intros [-> | ->]. Qed.

(** A response object that is true has a status other than 401 and 404. *)
Lemma response_ok_not_401_404 (code : nat) :
  response_ok code = true → (code =? 401) = false ∧ (code =? 404) = false.
Proof.
  intros Hok; split; apply Nat.eqb_neq; intros ->; discriminate Hok.
Qed.

(** The [except] clause never changes [status]: the only responses it
    looks at are those that are true, and these are neither 401 nor 404. *)
Lemma except_clause_keeps_status status info (e : exn) self (w : World) :
  except_RequestException status info e self w = (Ret (status, info), self, w).
Proof.
  destruct e as [| [code |] | | | | |]; try reflexivity.
  unfold except_RequestException.
  destruct (response_ok code) eqn:Hok; [| reflexivity].
  by destruct (response_ok_not_401_404 _ Hok) as [-> ->].
Qed.

(** The classifier returns one of three statuses only. *)
Lemma check_user_statuses (self : TwitchRecorder) (w : World) status info :
  (check_user self w).1.1 = Ret (status, info) →
  status = ONLINE ∨ status = OFFLINE ∨ status = ERROR.
Proof.
  unfold_check_user; simpl. intros H.
  repeat (case_match; simplify_eq/=; rewrite ?except_clause_keeps_status in * );
    simplify_eq/=; auto.
Qed.

(** Every failure of the request is classified as ERROR, and nothing is
    raised: the request itself raising a [RequestException], or a
    response with a status that [raise_for_status] rejects. *)
Lemma check_user_failure_is_error (self : TwitchRecorder) (w : World) :
  (∃ response, w_get w 0 = GetRaises (RequestException response))
  ∨ (∃ code body, w_get w 0 = GetResponse code body ∧ response_ok code = false) →
  (check_user self w).1.1 = Ret (ERROR, PNone).
Proof.
  unfold_check_user; cbn.
  intros [[response ->] | (code & body & -> & Hcode)]; cbn.
  - by rewrite except_clause_keeps_status.
  - rewrite Hcode; cbn. by rewrite except_clause_keeps_status.
Qed.

(** C3 (the code as it is): a response with status 401 or 404 is
    classified as ERROR, whatever its body, and nothing is raised. The
    branch that would give UNAUTHORIZED or NOT_FOUND is guarded by the
    truth value of the response object, which is false for these codes. *)
Theorem check_user_401_404_is_error (self : TwitchRecorder) (w : World)
    (code : nat) (body : result pyval) :
  w_get w 0 = GetResponse code body →
  code = 401 ∨ code = 404 →
  (check_user self w).1.1 = Ret (ERROR, PNone).
Proof.
  intros Hget Hcode. apply check_user_failure_is_error.
  right. exists code, body. split; [exact Hget |].
  by apply response_401_404_false.
Qed.

Lemma check_user_401_404_is_error_witness :
  (check_user sample_recorder
     (sample_world ∅ (GetResponse 401 (Ret PNone)) (CallExit 0 None))).1.1
  = Ret (ERROR, PNone).
Proof.
  apply (check_user_401_404_is_error _ _ 401 (Ret PNone)); [reflexivity | by left].
Defined.

(** C10: whenever the classifier returns a status other than ONLINE and
    OFFLINE, the info beside it is None; so only ONLINE and OFFLINE
    results carry a parsed body. *)
Theorem check_user_info_none (self : TwitchRecorder) (w : World)
    (status : TwitchResponseStatus) (info : pyval) :
  (check_user self w).1.1 = Ret (status, info) →
  status ≠ ONLINE → status ≠ OFFLINE →
  info = PNone.
Proof.
  unfold_check_user; simpl. intros H Hon Hoff.
  destruct (w_get w 0) as [e | code body]; simpl in H.
  - destruct (is_RequestException e); [| done].
    rewrite except_clause_keeps_status in H. by simplify_eq/=.
  - destruct (response_ok code); simpl in H;
      [| rewrite except_clause_keeps_status in H; by simplify_eq/=].
    destruct body as [v | e]; simpl in H.
    + repeat (case_match; simplify_eq/=;
              rewrite ?except_clause_keeps_status in * );
        by simplify_eq/=.
    + destruct (is_RequestException e); [| done].
      rewrite except_clause_keeps_status in H. by simplify_eq/=.
Qed.

Lemma check_user_info_none_witness :
  (check_user sample_recorder
     (sample_world ∅ (GetResponse 500 (Ret (PDict []))) (CallExit 0 None))).1.1
  = Ret (ERROR, PNone)
  ∧ ERROR ≠ ONLINE ∧ ERROR ≠ OFFLINE ∧ PNone = PNone.
Proof.
  assert (H : (check_user sample_recorder
     (sample_world ∅ (GetResponse 500 (Ret (PDict []))) (CallExit 0 None))).1.1
    = Ret (ERROR, PNone)) by reflexivity.
  split; [exact H |]. split; [discriminate |]. split; [discriminate |].
  apply (check_user_info_none _ _ ERROR PNone H); discriminate.
Defined.

(** What the classifier does with a response that passes
    [raise_for_status] and whose body parses to a dictionary with a
    [data] entry. *)
Lemma check_user_success (self : TwitchRecorder) (w : World) (code : nat)
    (d : list (pystr * pyval)) (data : pyval) :
  w_get w 0 = GetResponse code (Ret (PDict d)) →
  response_ok code = true →
  dict_lookup (py "data") d = Some data →
  (check_user self w).1.1
  = Ret (if truthy data then ONLINE else OFFLINE, PDict d)
  ∧ (truthy data = false → (check_user self w).1.2 = self).
Proof.
  intros Hget Hok Hdata.
  unfold_check_user; simpl. rewrite Hget; simpl. rewrite Hok; simpl.
  rewrite Hdata; simpl.
  destruct (truthy data); simpl; [| done].
  split; [| done]. by destruct (start_time_set self).
Qed.

(** C4: a successful response whose [data] array is empty is classified
    as OFFLINE; the body that comes back with the status holds no channel
    record, and the recorder is left as it was. *)
Theorem check_user_empty_data_is_offline (self : TwitchRecorder) (w : World)
    (code : nat) (d : list (pystr * pyval)) :
  w_get w 0 = GetResponse code (Ret (PDict d)) →
  response_ok code = true →
  dict_lookup (py "data") d = Some (PList []) →
  (check_user self w).1.1 = Ret (OFFLINE, PDict d)
  ∧ first_channel (PDict d) = Ret PNone
  ∧ (check_user self w).1.2 = self.
Proof.
  intros Hget Hok Hdata.
  destruct (check_user_success self w code d _ Hget Hok Hdata) as [Hret Hself].
  split; [exact Hret |]. split; [| by apply Hself].
  unfold first_channel; simpl. by rewrite Hdata.
Qed.

Lemma check_user_empty_data_is_offline_witness :
  let w := sample_world ∅ (GetResponse 200 (Ret (PDict [(py "data", PList [])])))
             (CallExit 0 None) in
  (check_user sample_recorder w).1.1
  = Ret (OFFLINE, PDict [(py "data", PList [])])
  ∧ first_channel (PDict [(py "data", PList [])]) = Ret PNone
  ∧ (check_user sample_recorder w).1.2 = sample_recorder.
Proof.
  apply (check_user_empty_data_is_offline _ _ 200); reflexivity.
Defined.

(** On ONLINE, once the Start notification has been posted, the capture
    is started on the file named after the channel record that
    [first_channel] gives. *)
Lemma on_status_online_capture unicode (self : TwitchRecorder) (w : World)
    (info channel : pyval) (filename : pystr) :
  w_webhook w 0 = Ret () →
  first_channel info = Ret channel →
  capture_filename unicode (username self) (w_now w 0) channel = Ret filename →
  ∃ rest, w_trace (on_status unicode ONLINE info self w).2
          = w_trace w ++ online_prefix self filename ++ rest.
Proof.
  intros Hposted Hchannel Hname. unfold online_prefix.
  unfold_on_status; simpl. rewrite Hposted; simpl.
  rewrite Hchannel; simpl. rewrite Hname; simpl.
  repeat (case_match; simplify_eq/=);
    rewrite <- ?app_assoc; simpl; eexists; reflexivity.
Qed.

(** The post of the Start notification is the first statement of the
    branch: when it raises, nothing else is done. *)
Lemma on_status_online_unposted unicode (self : TwitchRecorder) (w : World)
    (info : pyval) (e : exn) :
  w_webhook w 0 = Raise e →
  (on_status unicode ONLINE info self w).1.1 = Raise e
  ∧ (on_status unicode ONLINE info self w).1.2 = self
  ∧ w_trace (on_status unicode ONLINE info self w).2
    = w_trace w ++ [start_notification self]
  ∧ w_fs (on_status unicode ONLINE info self w).2 = w_fs w
  ∧ w_logfile (on_status unicode ONLINE info self w).2 = w_logfile w.
Proof.
  intros Hraises. unfold start_notification.
  unfold_on_status; simpl. by rewrite Hraises.
Qed.

(** C7: a successful response whose [data] array is not empty is
    classified as ONLINE, and the controller takes the first record of
    the array as the channel: once the Start notification has been
    posted, the capture is started on the file named after this record's
    title. The post comes first and is not guarded: when it raises, the
    round ends with its exception and no capture is started. *)
Theorem check_user_online_first_record unicode (self : TwitchRecorder)
    (w : World) (code : nat) (d : list (pystr * pyval))
    (record : pyval) (rest : list pyval) (title : pystr) :
  w_get w 0 = GetResponse code (Ret (PDict d)) →
  response_ok code = true →
  dict_lookup (py "data") d = Some (PList (record :: rest)) →
  dict_get record (py "title") = Ret (PStr title) →
  let checked := check_user self w in
  let self1 := checked.1.2 in
  let w1 := checked.2 in
  let live := on_status unicode ONLINE (PDict d) self1 w1 in
  checked.1.1 = Ret (ONLINE, PDict d)
  ∧ first_channel (PDict d) = Ret record
  ∧ match w_webhook w1 0 with
    | Ret _ =>
        ∃ events,
          w_trace live.2
          = w_trace w1
            ++ online_prefix self1
                 (clean_filename unicode
                    (username self1 ++ py " - " ++ w_now w1 0 ++ py " - "
                     ++ title ++ py ".mp4"))
            ++ events
    | Raise e =>
        live.1.1 = Raise e
        ∧ w_trace live.2 = w_trace w1 ++ [start_notification self1]
    end.
Proof.
  intros Hget Hok Hdata Htitle checked self1 w1 live.
  destruct (check_user_success self w code d _ Hget Hok Hdata) as [Hret _].
  assert (Hfirst : first_channel (PDict d) = Ret record).
  { unfold first_channel; simpl. by rewrite Hdata. }
  split; [exact Hret |]. split; [exact Hfirst |].
  destruct (w_webhook w1 0) as [[] | e] eqn:Hposted.
  - apply on_status_online_capture with (channel := record);
      [exact Hposted | exact Hfirst |].
    unfold capture_filename. rewrite Htitle. unfold str_add.
    by rewrite <- !app_assoc.
  - destruct (on_status_online_unposted unicode self1 w1 (PDict d) e Hposted)
      as (Hraise & _ & Htrace & _).
    by split.
Qed.

Lemma check_user_online_first_record_witness :
  let body := [(py "data", PList [stream_record "Foo"; stream_record "Bar"])] in
  let w := sample_world ∅ (GetResponse 200 (Ret (PDict body))) (CallExit 0 None) in
  let checked := check_user sample_recorder w in
  checked.1.1 = Ret (ONLINE, PDict body)
  ∧ first_channel (PDict body) = Ret (stream_record "Foo")
  ∧ ∃ events,
      w_trace (on_status sample_unicode ONLINE (PDict body) checked.1.2 checked.2).2
      = w_trace checked.2
        ++ online_prefix checked.1.2
             (clean_filename sample_unicode
                (username checked.1.2 ++ py " - " ++ w_now checked.2 0 ++ py " - "
                 ++ py "Foo" ++ py ".mp4"))
        ++ events.
Proof.
  intros body w checked.
  destruct (check_user_online_first_record sample_unicode sample_recorder w 200
              body (stream_record "Foo") [stream_record "Bar"] (py "Foo"))
    as (Hret & Hfirst & Hcapture); [reflexivity .. |].
  split; [exact Hret |]. split; [exact Hfirst |]. exact Hcapture.
Defined.

(** The file name of that run, computed. *)
Example capture_filename_foo :
  capture_filename sample_unicode (py "dawok") (py "250101 12h00m00s")
    (stream_record "Foo: live/now!")
  = Ret (py "dawok - 250101 12h00m00s - Foo livenow.mp4").
Proof. reflexivity. Qed.

(** ** File names *)

Section CleanFilename.

Variable unicode : N → bool.

Lemma clean_filename_cons (x : N) (s : pystr) :
  clean_filename unicode (x :: s)
  = if keep_char unicode x then x :: clean_filename unicode s
    else clean_filename unicode s.
Proof. reflexivity. Qed.

Lemma clean_filename_kept (s : pystr) :
  Forall (λ c, keep_char unicode c = true) (clean_filename unicode s).
Proof.
  induction s as [| x s IH]; [constructor |].
  rewrite clean_filename_cons.
  destruct (keep_char unicode x) eqn:Hx; [by constructor | exact IH].
Qed.

(** A string of kept characters is left as it is. *)
Lemma clean_filename_fixed (s : pystr) :
  Forall (λ c, keep_char unicode c = true) s → clean_filename unicode s = s.
Proof.
  induction 1 as [| x s Hx _ IH]; [reflexivity |].
  by rewrite clean_filename_cons, Hx, IH.
Qed.

Lemma clean_filename_idempotent (s : pystr) :
  clean_filename unicode (clean_filename unicode s) = clean_filename unicode s.
Proof. apply clean_filename_fixed, clean_filename_kept. Qed.

(** Below 128 the kept characters are those of [[A-Za-z0-9 _.-]]. *)
Lemma keep_char_ascii (c : N) :
  (c < 128)%N → keep_char unicode c = safe_ascii c.
Proof.
  intros Hc. unfold keep_char, isalnum, latin1_isalnum, safe_ascii.
  assert ((c <? 256)%N = true) as -> by (apply N.ltb_lt; lia).
  apply eq_true_iff_eq.
  rewrite !orb_true_iff, !andb_true_iff, !N.leb_le, !N.eqb_eq,
    bool_decide_eq_true, !elem_of_cons, elem_of_nil.
  lia.
Qed.

End CleanFilename.

(** C5, as written, fails on the title "café" (code points 99, 97, 102,
    233): its last letter is alphanumeric for [str.isalnum] and stays. *)
Lemma clean_filename_keeps_letters_beyond_ascii :
  ¬ clean_filename_claim sample_unicode [99; 97; 102; 233]%N.
Proof.
  intros [_ Hclass].
  assert (Hin : (233%N : N) ∈ clean_filename sample_unicode [99; 97; 102; 233]%N)
    by (vm_compute; set_solver).
  rewrite Forall_forall in Hclass. specialize (Hclass _ Hin).
  discriminate Hclass.
Qed.

(** C5, amended: cleaning is idempotent; every character of its output
    is alphanumeric for [str.isalnum] or one of space, hyphen, underscore
    and dot; on a string of code points below 128 the output lies in
    [[A-Za-z0-9 _.-]]. *)
Theorem clean_filename_idempotent_and_kept (unicode : N → bool) (s : pystr) :
  clean_filename unicode (clean_filename unicode s) = clean_filename unicode s
  ∧ Forall (λ c, isalnum unicode c = true ∨ c ∈ [32; 45; 95; 46]%N)
      (clean_filename unicode s)
  ∧ (Forall (λ c, (c < 128)%N) s
     → Forall (λ c, safe_ascii c = true) (clean_filename unicode s)).
Proof.
  split; [apply clean_filename_idempotent |]. split.
  - eapply Forall_impl; [apply clean_filename_kept |].
    intros c Hc. unfold keep_char in Hc.
    apply orb_true_iff in Hc as [Hc | Hc]; [by left | right].
    by apply bool_decide_eq_true in Hc.
  - intros Hascii. induction Hascii as [| x s Hx _ IH]; [constructor |].
    rewrite clean_filename_cons.
    destruct (keep_char unicode x) eqn:Hkeep; [| exact IH].
    constructor; [| exact IH]. by rewrite <- (keep_char_ascii unicode x Hx).
Qed.

Lemma clean_filename_idempotent_and_kept_witness :
  let s := py "Foo: live/now!.mp4" in
  Forall (λ c, (c < 128)%N) s
  ∧ clean_filename sample_unicode s = py "Foo livenow.mp4"
  ∧ Forall (λ c, safe_ascii c = true) (clean_filename sample_unicode s).
Proof.
  assert (Hs : Forall (λ c, (c < 128)%N) (py "Foo: live/now!.mp4")).
  { apply Forall_forall. intros c Hc. vm_compute in Hc.
    repeat (apply elem_of_cons in Hc as [-> | Hc]; [reflexivity |]).
    by apply elem_of_nil in Hc. }
  split; [exact Hs |]. split; [reflexivity |].
  exact (proj2 (proj2 (clean_filename_idempotent_and_kept sample_unicode _)) Hs).
Defined.

(** ** The post-processor *)

(** [os.remove] of a regular file in a writable directory. *)
Lemma os_remove_file (fs : gmap path node) (p : path) (content : bytes) :
  fs !! p = Some (File content) →
  dir_writable fs (dirname p) = true →
  os_remove fs p = (Ret (), delete p fs).
Proof. intros Hp Hdir. unfold os_remove. by rewrite Hp, Hdir. Qed.

(** C1 (the code as it is): with processing enabled, once the transcoder
    has run the raw file is removed, whatever the return code and whether
    or not anything was written to the destination; the return code of
    [subprocess.call] is dropped. *)
Theorem transcoder_failure_still_removes_raw (self : TwitchRecorder) (w : World)
    (raw dest : path) (content : bytes) (returncode : Z) :
  disable_ffmpeg self = false →
  w_fs w !! raw = Some (File content) →
  dir_writable (w_fs w) (dirname raw) = true →
  w_ffmpeg w 0 = CallExit returncode None →
  returncode ≠ 0%Z →
  let out := process_recorded_file raw dest self w in
  out.1.1 = Ret ()
  ∧ w_fs out.2 !! raw = None
  ∧ (dest ≠ raw → w_fs out.2 !! dest = w_fs w !! dest).
Proof.
  intros Hon Hraw Hdir Hrun _.
  unfold_process; simpl. rewrite Hon; simpl. rewrite Hrun; simpl.
  rewrite (os_remove_file _ _ _ Hraw Hdir); simpl.
  split; [done |]. split; [apply lookup_delete_eq |].
  intros Hne. by rewrite lookup_delete_ne.
Qed.

Lemma transcoder_failure_still_removes_raw_witness :
  let raw := raw_dir ++ [py "a.mp4"] in
  let dest := done_dir ++ [py "a.mp4"] in
  let w := sample_world leftover_fs (GetRaises (RequestException None))
             (CallExit 1 None) in
  let out := process_recorded_file raw dest sample_recorder w in
  out.1.1 = Ret ()
  ∧ w_fs out.2 !! raw = None
  ∧ w_fs out.2 !! dest = None.
Proof.
  intros raw dest w out.
  destruct (transcoder_failure_still_removes_raw sample_recorder w raw dest
              [1; 2; 3]%N 1) as (Hret & Hraw & Hdest);
    [reflexivity | reflexivity | reflexivity | reflexivity | discriminate |].
  split; [exact Hret |]. split; [exact Hraw |].
  etransitivity; [apply Hdest; discriminate | reflexivity].
Defined.

(** When the transcoder cannot be started, the raw file stays. *)
Lemma transcoder_not_started_keeps_raw (self : TwitchRecorder) (w : World)
    (raw dest : path) (e : oserror) :
  disable_ffmpeg self = false →
  w_ffmpeg w 0 = CallRaises e →
  let out := process_recorded_file raw dest self w in
  out.1.1 = Ret () ∧ w_fs out.2 = w_fs w.
Proof.
  intros Hon Hrun. unfold_process; simpl. rewrite Hon; simpl.
  by rewrite Hrun.
Qed.

(** [shutil.move] of a regular file onto a path that is not a directory. *)
Lemma shutil_move_file (fs : gmap path node) (src dst : path) (content : bytes) :
  fs !! src = Some (File content) →
  os_path_isdir fs dst = false →
  src ≠ dst →
  shutil_move fs src dst =
    match (if os_path_isfile fs dst then Ret ()
           else dir_access fs (dirname dst)) with
    | Raise e => (Raise e, fs)
    | Ret _ =>
        if dir_writable fs (dirname src)
        then (Ret (), <[dst := File content]> (delete src fs))
        else (Raise (OSError PermissionError), <[dst := File content]> fs)
    end.
Proof.
  intros Hsrc Hdst Hne. unfold shutil_move. rewrite Hdst, Hsrc; simpl.
  by rewrite bool_decide_eq_false_2.
Qed.

Lemma dir_access_IOError (fs : gmap path node) (d : path) (e : exn) :
  dir_access fs d = Raise e → is_IOError e = true.
Proof.
  unfold dir_access. intros H. repeat case_match; by simplify_eq.
Qed.

(** C8: with processing disabled, [process_recorded_file] is a move and
    nothing else. When it returns, the destination holds the bytes the
    source held, the source is gone and no other path has changed; when
    the move cannot be completed an [IOError] comes out and the source is
    as it was. It fails, changing nothing, when the destination is not
    there yet and its directory cannot take the file; it returns when the
    source directory is writable and either the destination directory is
    writable or the destination file is there already, which is then
    overwritten. *)
Theorem process_disabled_is_move (self : TwitchRecorder) (w : World)
    (src dst : path) (content : bytes) :
  disable_ffmpeg self = true →
  w_fs w !! src = Some (File content) →
  os_path_isdir (w_fs w) dst = false →
  src ≠ dst →
  let out := process_recorded_file src dst self w in
  match out.1.1 with
  | Ret _ =>
      w_fs out.2 !! dst = Some (File content)
      ∧ w_fs out.2 !! src = None
      ∧ ∀ p, p ≠ src → p ≠ dst → w_fs out.2 !! p = w_fs w !! p
  | Raise e =>
      is_IOError e = true ∧ w_fs out.2 !! src = Some (File content)
  end
  ∧ (w_fs w !! dst = None →
     dir_writable (w_fs w) (dirname dst) = false →
     (∃ e, out.1.1 = Raise e) ∧ w_fs out.2 = w_fs w)
  ∧ (dir_writable (w_fs w) (dirname dst) = true
     ∨ os_path_isfile (w_fs w) dst = true →
     dir_writable (w_fs w) (dirname src) = true → out.1.1 = Ret ())
  ∧ w_trace out.2 = w_trace w ++ [ELog INFO (MsgMoving src)].
Proof.
  intros Hoff Hsrc Hdst Hne.
  unfold_process; simpl. rewrite Hoff; simpl.
  rewrite (shutil_move_file _ _ _ _ Hsrc Hdst Hne).
  unfold dir_writable, os_path_isfile.
  destruct (w_fs w !! dst) as [[old | writable] |] eqn:Hold; simpl.
  - destruct (dir_access (w_fs w) (dirname src)) as [[] | e'] eqn:Hdir'; simpl.
    + repeat split; try done.
      * apply lookup_insert_eq.
      * rewrite lookup_insert_ne, lookup_delete_eq; done.
      * intros p Hp1 Hp2. rewrite lookup_insert_ne, lookup_delete_ne; done.
    + repeat split; try done. rewrite lookup_insert_ne; done.
  - unfold os_path_isdir in Hdst. by rewrite Hold in Hdst.
  - destruct (dir_access (w_fs w) (dirname dst)) as [[] | e] eqn:Hdir; simpl.
    + destruct (dir_access (w_fs w) (dirname src)) as [[] | e'] eqn:Hdir'; simpl.
      * repeat split; try done.
        -- apply lookup_insert_eq.
        -- rewrite lookup_insert_ne, lookup_delete_eq; done.
        -- intros p Hp1 Hp2. rewrite lookup_insert_ne, lookup_delete_ne; done.
      * repeat split; try done. rewrite lookup_insert_ne; done.
    + repeat split; try done; eauto using dir_access_IOError.
      by intros [? | ?].
Qed.

Lemma process_disabled_is_move_witness :
  let src := raw_dir ++ [py "a.mp4"] in
  let dst := done_dir ++ [py "a.mp4"] in
  let w := sample_world leftover_fs (GetRaises (RequestException None))
             (CallExit 0 None) in
  let out := process_recorded_file src dst moving_recorder w in
  out.1.1 = Ret ()
  ∧ w_fs out.2 !! dst = Some (File [1; 2; 3]%N)
  ∧ w_fs out.2 !! src = None.
Proof.
  intros src dst w out.
  destruct (process_disabled_is_move moving_recorder w src dst [1; 2; 3]%N)
    as (Hmove & _ & Hret & _);
    [reflexivity | reflexivity | reflexivity | discriminate |].
  assert (Hok : out.1.1 = Ret ()) by (apply Hret; [by left | reflexivity]).
  split; [exact Hok |].
  fold out in Hmove. rewrite Hok in Hmove.
  destruct Hmove as (Hdst & Hgone & _). by split.
Defined.

(** The same move into a read-only directory: an [IOError], and the file
    system is as before. *)
Example process_disabled_readonly :
  let w := sample_world readonly_fs (GetRaises (RequestException None))
             (CallExit 0 None) in
  let out := process_recorded_file (raw_dir ++ [py "a.mp4"])
               (done_dir ++ [py "a.mp4"]) moving_recorder w in
  out.1.1 = Raise (OSError PermissionError) ∧ w_fs out.2 = readonly_fs.
Proof. split; reflexivity. Qed.

(** When the read-only directory holds a file of that name already, the
    rename fails, the copy overwrites the file and the source is removed. *)
Example process_disabled_overwrites :
  let dst := done_dir ++ [py "a.mp4"] in
  let w := sample_world (<[dst := File [9]%N]> readonly_fs)
             (GetRaises (RequestException None)) (CallExit 0 None) in
  let out := process_recorded_file (raw_dir ++ [py "a.mp4"]) dst
               moving_recorder w in
  out.1.1 = Ret ()
  ∧ w_fs out.2 !! dst = Some (File [1; 2; 3]%N)
  ∧ w_fs out.2 !! (raw_dir ++ [py "a.mp4"]) = None.
Proof. by vm_compute. Qed.

(** ** The polling loop *)

Lemma new_events_app (w w' : World) (events : list event) :
  w_trace w' = w_trace w ++ events → new_events w w' = events.
Proof. intros H. unfold new_events. rewrite H. apply drop_app_length. Qed.

(** A status check sends this one request and leaves no other event. *)
Lemma check_user_trace (self : TwitchRecorder) (w : World) :
  w_trace (check_user self w).2 = w_trace w ++ [status_request self].
Proof.
  unfold status_request. unfold_check_user; cbn.
  destruct (w_get w 0) as [e | code body]; cbn.
  - destruct (is_RequestException e); [| reflexivity].
    by rewrite except_clause_keeps_status.
  - destruct (response_ok code); cbn;
      [| by rewrite except_clause_keeps_status].
    destruct body as [v | e]; cbn.
    + repeat (case_match; simplify_eq/=;
              rewrite ?except_clause_keeps_status in * );
        by simplify_eq/=.
    + destruct (is_RequestException e); [| reflexivity].
      by rewrite except_clause_keeps_status.
Qed.

(** A status check posts nothing to the webhook and logs nothing. *)
Lemma check_user_keeps_webhook (self : TwitchRecorder) (w : World) :
  w_webhook (check_user self w).2 = w_webhook w
  ∧ w_logfile (check_user self w).2 = w_logfile w.
Proof.
  unfold_check_user; cbn.
  destruct (w_get w 0) as [e | code body]; cbn.
  - destruct (is_RequestException e); [| done].
    by rewrite except_clause_keeps_status.
  - destruct (response_ok code); cbn;
      [| by rewrite except_clause_keeps_status].
    destruct body as [v | e]; cbn.
    + repeat (case_match; simplify_eq/=;
              rewrite ?except_clause_keeps_status in * );
        by simplify_eq/=.
    + destruct (is_RequestException e); [| done].
      by rewrite except_clause_keeps_status.
Qed.

(** The controller's answer to ERROR: the error is logged and the Error
    notification posted; when the post returns, two seconds of sleep and
    [sys.exit()] follow; when it raises, its exception leaves the branch
    at once. *)
Lemma on_status_error unicode (info : pyval) (self : TwitchRecorder) (w : World) :
  let message := py "Unexpected error. Restarting script." in
  let out := on_status unicode ERROR info self w in
  out.1.2 = self
  ∧ w_fs out.2 = w_fs w
  ∧ match w_webhook w 0 with
    | Ret _ =>
        out.1.1 = Raise SystemExit
        ∧ w_trace out.2 = w_trace w
                          ++ [ELog ERROR_LEVEL (MsgText message);
                              error_notification self message;
                              ESleep 2; ESysExit]
    | Raise e =>
        out.1.1 = Raise e
        ∧ w_trace out.2 = w_trace w
                          ++ [ELog ERROR_LEVEL (MsgText message);
                              error_notification self message]
    end.
Proof.
  unfold error_notification. unfold_loop; cbn.
  destruct (w_webhook w 0) as [[] | e]; cbn;
    rewrite <- ?app_assoc; by repeat split.
Qed.

(** One round of the loop. *)
Lemma check_stream_continuously_round unicode (fuel : nat)
    (self : TwitchRecorder) (w : World) :
  check_stream_continuously unicode (S fuel) self w =
    match check_user self w with
    | (Ret r, self1, w1) =>
        match on_status unicode r.1 r.2 self1 w1 with
        | (Ret _, self2, w2) => check_stream_continuously unicode fuel self2 w2
        | (Raise e, self2, w2) => (Raise e, self2, w2)
        end
    | (Raise e, self1, w1) => (Raise e, self1, w1)
    end.
Proof. reflexivity. Qed.

(** The round of a status check that has returned ERROR, whatever the
    number of rounds still to come. *)
Lemma error_round unicode (fuel : nat) (self self1 : TwitchRecorder)
    (w w1 : World) (info : pyval) :
  check_user self w = (Ret (ERROR, info), self1, w1) →
  let message := py "Unexpected error. Restarting script." in
  let out := check_stream_continuously unicode (S fuel) self w in
  out.1.2 = self1
  ∧ match w_webhook w1 0 with
    | Ret _ =>
        out.1.1 = Raise SystemExit
        ∧ w_trace out.2
          = w_trace w1
            ++ [ELog ERROR_LEVEL (MsgText message);
                error_notification self1 message; ESleep 2; ESysExit]
    | Raise e =>
        out.1.1 = Raise e
        ∧ w_trace out.2
          = w_trace w1
            ++ [ELog ERROR_LEVEL (MsgText message);
                error_notification self1 message]
    end.
Proof.
  intros Hcheck message out.
  destruct (on_status_error unicode info self1 w1) as (Hself & _ & Hon).
  unfold out. rewrite check_stream_continuously_round, Hcheck. cbn [fst snd].
  destruct (on_status unicode ERROR info self1 w1) as [[r self2] w2].
  cbn [fst snd] in *. subst self2.
  by destruct (w_webhook w1 0) as [[] | e]; destruct Hon as [-> Htrace].
Qed.

(** C2, as written, fails when the webhook cannot be reached: the post of
    the notification raises, and the backoff sleep does not take place
    (nor is [sys.exit()] reached: the exception of the post ends the
    polling thread). *)
Lemma error_status_unposted_notification_skips_exit :
  ¬ error_status_claim sample_unicode sample_recorder
      (world_without_webhook ∅ (GetRaises (RequestException None))).
Proof.
  intros Hclaim. destruct Hclaim as (_ & Hsleep & _); [reflexivity |].
  vm_compute in Hsleep. discriminate Hsleep.
Qed.

(** C2, amended: when a status check returns ERROR, the loop logs the
    error and posts exactly one Error notification. When the post returns,
    the loop sleeps for two seconds and ends with [sys.exit()], which
    raises [SystemExit] in the polling thread; when the post raises, its
    exception ends the polling thread at once, without the sleep. However
    many rounds were still to come, nothing is polled after that. *)
Theorem error_status_notifies_once_and_ends unicode (fuel : nat)
    (self self1 : TwitchRecorder) (w w1 : World) (info : pyval) :
  check_user self w = (Ret (ERROR, info), self1, w1) →
  let message := py "Unexpected error. Restarting script." in
  let out := check_stream_continuously unicode (S fuel) self w in
  List.filter is_error_notification (new_events w1 out.2)
  = [error_notification self1 message]
  ∧ List.filter is_status_check (new_events w1 out.2) = []
  ∧ match w_webhook w1 0 with
    | Ret _ =>
        out.1.1 = Raise SystemExit
        ∧ new_events w1 out.2
          = [ELog ERROR_LEVEL (MsgText message);
             error_notification self1 message; ESleep 2; ESysExit]
    | Raise e =>
        out.1.1 = Raise e
        ∧ new_events w1 out.2
          = [ELog ERROR_LEVEL (MsgText message);
             error_notification self1 message]
    end.
Proof.
  intros Hcheck message out.
  destruct (error_round unicode fuel self self1 w w1 info Hcheck)
    as (_ & Hround).
  fold out message in Hround.
  destruct (w_webhook w1 0) as [[] | e]; destruct Hround as [Hret Htrace];
    rewrite (new_events_app _ _ _ Htrace);
    cbn; by rewrite ?bool_decide_eq_true_2.
Qed.

Lemma error_status_notifies_once_and_ends_witness :
  let w := sample_world ∅ (GetRaises (RequestException None)) (CallExit 0 None) in
  let message := py "Unexpected error. Restarting script." in
  let out := check_stream_continuously sample_unicode 5 sample_recorder w in
  out.1.1 = Raise SystemExit
  ∧ new_events (check_user sample_recorder w).2 out.2
    = [ELog ERROR_LEVEL (MsgText message);
       error_notification sample_recorder message; ESleep 2; ESysExit].
Proof.
  intros w message out.
  destruct (error_status_notifies_once_and_ends sample_unicode 4
              sample_recorder sample_recorder w (check_user sample_recorder w).2
              PNone)
    as (_ & _ & Hround); [reflexivity |].
  exact Hround.
Defined.

(** C6 (the code as it is): a status request answered with 401 does not
    lead to a refresh of the credential. The status check classifies the
    response as ERROR, so that the loop takes the ERROR branch: no token
    is requested, the credential stays as it was, the Error notification
    posted is the one of the unexpected error, and the loop ends, with
    [sys.exit()] or with the exception of the post. The branch that
    refreshes the token is never reached. *)
Theorem unauthorized_response_ends_loop_unrefreshed unicode (fuel : nat)
    (self : TwitchRecorder) (w : World) (body : result pyval) :
  w_get w 0 = GetResponse 401 body →
  let message := py "Unexpected error. Restarting script." in
  let out := check_stream_continuously unicode (S fuel) self w in
  (check_user self w).1.1 = Ret (ERROR, PNone)
  ∧ List.filter is_token_post (new_events w out.2) = []
  ∧ access_token out.1.2 = access_token self
  ∧ List.filter is_status_check (new_events w out.2) = [status_request self]
  ∧ match w_webhook w 0 with
    | Ret _ =>
        out.1.1 = Raise SystemExit
        ∧ new_events w out.2
          = [status_request self; ELog ERROR_LEVEL (MsgText message);
             error_notification self message; ESleep 2; ESysExit]
    | Raise e =>
        out.1.1 = Raise e
        ∧ new_events w out.2
          = [status_request self; ELog ERROR_LEVEL (MsgText message);
             error_notification self message]
    end.
Proof.
  intros Hget message out.
  assert (Herror : (check_user self w).1.1 = Ret (ERROR, PNone)).
  { apply check_user_failure_is_error. right. by exists 401, body. }
  assert (Hself : (check_user self w).1.2 = self).
  { unfold_check_user; cbn. rewrite Hget; cbn.
    by rewrite except_clause_keeps_status. }
  pose proof (check_user_trace self w) as Htrace.
  pose proof (check_user_keeps_webhook self w) as [Hwebhook _].
  destruct (check_user self w) as [[checked self1] w1] eqn:Hcheck.
  cbn [fst snd] in *. subst checked self1.
  destruct (error_round unicode fuel self self w w1 PNone Hcheck)
    as (Hkept & Hround).
  fold out message in Hkept, Hround. rewrite Hwebhook in Hround.
  split; [done |].
  rewrite Hkept.
  destruct (w_webhook w 0) as [[] | e]; destruct Hround as [Hret Hnew];
    rewrite Htrace, <- app_assoc in Hnew;
    rewrite (new_events_app _ _ _ Hnew); by cbn.
Qed.

Lemma unauthorized_response_ends_loop_unrefreshed_witness :
  let w := sample_world ∅ (GetResponse 401 (Ret PNone)) (CallExit 0 None) in
  let out := check_stream_continuously sample_unicode 3 sample_recorder w in
  (check_user sample_recorder w).1.1 = Ret (ERROR, PNone)
  ∧ List.filter is_token_post (new_events w out.2) = []
  ∧ access_token out.1.2 = py "stale"
  ∧ out.1.1 = Raise SystemExit.
Proof.
  intros w out.
  destruct (unauthorized_response_ends_loop_unrefreshed sample_unicode 2
              sample_recorder w (Ret PNone))
    as (Herror & Hnone & Htoken & _ & Hret & _); [reflexivity |].
  by repeat split.
Defined.

(** ** Directories *)












Lemma os_mkdir_cases (fs : gmap path node) (p : path) :
  (fs !! p = None ∧ os_mkdir fs p = (Ret (), <[p := Dir true]> fs))
  ∨ ∃ e, os_mkdir fs p = (Raise (OSError e), fs).
Proof.
  unfold os_mkdir, dir_access.
  destruct (fs !! p) eqn:Hp; [by eauto |].
  repeat case_match; simplify_eq/=; eauto.
Qed.



(** ** The startup sweep *)

Lemma handed_over_app (l1 l2 : list event) :
  handed_over (l1 ++ l2) = handed_over l1 ++ handed_over l2.
Proof. apply omap_app. Qed.

Lemma shutil_move_OSError (fs : gmap path node) (src dst : path) :
  (shutil_move fs src dst).1 = Ret ()
  ∨ ∃ e, (shutil_move fs src dst).1 = Raise (OSError e).
Proof.
  unfold shutil_move, dir_access.
  repeat case_match; simplify_eq/=; eauto.
Qed.

(** [shutil.move] leaves every path shorter than its two arguments alone. *)
Lemma shutil_move_frame (fs : gmap path node) (src dst q : path) :
  length q < length src → length q < length dst →
  (shutil_move fs src dst).2 !! q = fs !! q.
Proof.
  intros Hsrc Hdst. unfold shutil_move.
  assert (Hne : q ≠ src) by (intros ->; lia).
  assert (Hne1 : q ≠ dst) by (intros ->; lia).
  assert (Hne2 : ∀ name : pystr, q ≠ dst ++ [name]).
  { intros name ->. rewrite length_app in Hdst. lia. }
  repeat case_match; simplify_eq/=; try done;
    rewrite ?lookup_insert_ne, ?lookup_delete_ne; done.
Qed.

(** One file of the sweep, or the capture of a session. *)
Lemma process_recorded_file_step (self : TwitchRecorder) (w : World)
    (raw dest : path) :
  let out := process_recorded_file raw dest self w in
  ∃ events,
    w_trace out.2 = w_trace w ++ events
    ∧ handed_over events = [raw]
    ∧ out.1.2 = self
    ∧ (out.1.1 = Ret () ∨ ∃ e, out.1.1 = Raise (OSError e))
    ∧ (disable_ffmpeg self = false → out.1.1 = Ret ())
    ∧ ∀ q, length q < length raw → length q < length dest →
           w_fs out.2 !! q = w_fs w !! q.
Proof.
  unfold_process; cbn. destruct (disable_ffmpeg self); cbn.
  - destruct (shutil_move (w_fs w) raw dest) as [r fs'] eqn:Hmove; cbn.
    exists [ELog INFO (MsgMoving raw)].
    pose proof (shutil_move_OSError (w_fs w) raw dest) as Hr.
    pose proof (shutil_move_frame (w_fs w) raw dest) as Hframe.
    rewrite Hmove in Hr, Hframe. cbn in Hr, Hframe.
    repeat split; try done; intros q Hq1 Hq2; by apply Hframe.
  - assert (Hne : ∀ q : path, length q < length raw → q ≠ raw)
      by (intros q Hq ->; lia).
    assert (Hne' : ∀ q : path, length q < length dest → q ≠ dest)
      by (intros q Hq ->; lia).
    unfold os_remove.
    repeat (case_match; simplify_eq/=); rewrite <- ?app_assoc;
      (eexists; split; [reflexivity |]);
      repeat split; cbn; eauto;
      intros q Hq1 Hq2;
      rewrite ?lookup_delete_ne, ?lookup_insert_ne; auto;
      apply not_eq_sym; auto.
Qed.

(** The loop over the listed files: the files are handed over in the order
    of the list, up to the first one whose processing raises, and no path
    as short as the directories changes. *)
Lemma sweep_loop (self : TwitchRecorder) (recorded processed : path)
    (l : list pystr) :
  length processed = length recorded →
  ∀ w : World,
    let out := for_each l (λ f,
                 process_recorded_file (os_path_join recorded [f])
                   (os_path_join processed [f])) self w in
    ∃ events,
      w_trace out.2 = w_trace w ++ events
      ∧ handed_over events `prefix_of` ((λ f, recorded ++ [f]) <$> l)
      ∧ (disable_ffmpeg self = false →
         handed_over events = (λ f, recorded ++ [f]) <$> l)
      ∧ out.1.2 = self
      ∧ (out.1.1 = Ret () ∨ ∃ e, out.1.1 = Raise (OSError e))
      ∧ ∀ q, length q ≤ length recorded → w_fs out.2 !! q = w_fs w !! q.
Proof.
  intros Hlen. induction l as [| f l IH]; intros w.
  - exists []. cbn. rewrite app_nil_r. repeat split; eauto.
  - cbn [for_each]. unfold mbind, M_bind, bind.
    destruct (process_recorded_file_step self w (os_path_join recorded [f])
                (os_path_join processed [f]))
      as (ev1 & Htrace1 & Hhanded1 & Hself1 & Hres1 & Hon1 & Hframe1).
    destruct (process_recorded_file (os_path_join recorded [f])
                (os_path_join processed [f]) self w) as [[r1 self1] w1].
    cbn [fst snd] in *. subst self1.
    assert (Hshort : ∀ q : path, length q ≤ length recorded →
                                w_fs w1 !! q = w_fs w !! q).
    { intros q Hq. apply Hframe1; unfold os_path_join; rewrite length_app;
        cbn; lia. }
    destruct r1 as [[] | e].
    + destruct (IH w1) as (ev2 & Htrace2 & Hpre2 & Hon2 & Hself2 & Hres2 & Hframe2).
      exists (ev1 ++ ev2). rewrite handed_over_app, Hhanded1. cbn.
      repeat split.
      * by rewrite Htrace2, Htrace1, app_assoc.
      * by apply prefix_cons.
      * intros Hon. by rewrite Hon2.
      * exact Hself2.
      * exact Hres2.
      * intros q Hq. rewrite Hframe2, Hshort; done.
    + exists ev1. rewrite Hhanded1. cbn.
      repeat split; try done.
      * apply prefix_cons, prefix_nil.
      * intros Hon. specialize (Hon1 Hon). done.
Qed.

(** [try: body  except Exception as e: logging.error(e)] around a body
    that raises nothing but [OSError]: it returns, and adds at most the
    error to the log. *)
Lemma try_except_logs (body : M unit) (self : TwitchRecorder) (w : World) :
  (body self w).1.1 = Ret () ∨ (∃ e, (body self w).1.1 = Raise (OSError e)) →
  let out := try_except body is_Exception
               (λ e, logging_error (MsgException e)) self w in
  out.1.1 = Ret ()
  ∧ out.1.2 = (body self w).1.2
  ∧ w_fs out.2 = w_fs (body self w).2
  ∧ ∃ tail, w_trace out.2 = w_trace (body self w).2 ++ tail
            ∧ handed_over tail = [].
Proof.
  unfold try_except, logging_error, tell.
  destruct (body self w) as [[r self'] w']; cbn [fst snd].
  intros [-> | [e ->]]; cbn.
  - repeat split. exists []. by rewrite app_nil_r.
  - repeat split. by eexists.
Qed.










(** The sweep of that start, computed: the one capture goes through the
    transcoder once. *)
Example run_leftover_events :
  let w := sample_world leftover_fs (GetRaises (RequestException None))
             (CallExit 0 (Some [1; 2; 3]%N)) in
  new_events w (run sample_recorder w).2
  = [EThreadStart; ELog INFO MsgPreviouslyRecorded;
     ELog INFO (MsgFixing (raw_dir ++ [py "a.mp4"]));
     EFfmpeg (py "ffmpeg") (raw_dir ++ [py "a.mp4"]) (done_dir ++ [py "a.mp4"])].
Proof. by vm_compute. Qed.

(** * Further properties *)

(** ** The status classifier, continued *)

(** What a status check leaves alone. *)
Lemma check_user_frame (self : TwitchRecorder) (w : World) :
  let out := check_user self w in
  new_events w out.2 = [status_request self]
  ∧ w_fs out.2 = w_fs w
  ∧ config_of out.1.2 = config_of self
  ∧ access_token out.1.2 = access_token self
  ∧ (stream_start_time out.1.2 = stream_start_time self
     ∨ stream_start_time out.1.2 = Some (w_utcnow w 0)).
Proof.
  intros out. split; [apply new_events_app, check_user_trace |].
  unfold out. unfold_check_user; cbn.
  destruct (w_get w 0) as [e | code body]; cbn.
  - destruct (is_RequestException e); [| by auto].
    rewrite except_clause_keeps_status. by auto.
  - destruct (response_ok code); cbn;
      [| rewrite except_clause_keeps_status; by auto].
    destruct body as [v | e]; cbn.
    + repeat (case_match; simplify_eq/=;
              rewrite ?except_clause_keeps_status in * );
        simplify_eq/=; auto.
    + destruct (is_RequestException e); [| by auto].
      rewrite except_clause_keeps_status. by auto.
Qed.

(** X1: a status check sends one request and nothing else happens: the
    file system is as before, and of the recorder only the session stamp
    may have changed, to the current UTC date. This holds whether the
    check returns or raises. *)
Theorem check_user_changes_stamp_only (self : TwitchRecorder) (w : World) :
  let out := check_user self w in
  new_events w out.2 = [status_request self]
  ∧ w_fs out.2 = w_fs w
  ∧ config_of out.1.2 = config_of self
  ∧ access_token out.1.2 = access_token self
  ∧ (stream_start_time out.1.2 = stream_start_time self
     ∨ stream_start_time out.1.2 = Some (w_utcnow w 0)).
Proof. exact (check_user_frame self w). Qed.

(** X2: the session is stamped by the first ONLINE check only. On a
    response with a true [data] entry, a recorder without a stamp gets
    the current UTC date and one reading of the clock is used; a recorder
    with a stamp is left as it is and the clock is not read. *)
Theorem check_user_stamps_session_once (self : TwitchRecorder) (w : World)
    (code : nat) (d : list (pystr * pyval)) (data : pyval) :
  w_get w 0 = GetResponse code (Ret (PDict d)) →
  response_ok code = true →
  dict_lookup (py "data") d = Some data →
  truthy data = true →
  let out := check_user self w in
  out.1.1 = Ret (ONLINE, PDict d)
  ∧ (if start_time_set self
     then out.1.2 = self ∧ w_utcnow out.2 = w_utcnow w
     else out.1.2 = set_stream_start_time (Some (w_utcnow w 0)) self
          ∧ ∀ n, w_utcnow out.2 n = w_utcnow w (S n)).
Proof.
  intros Hget Hok Hdata Htrue.
  unfold_check_user; cbn. rewrite Hget; cbn. rewrite Hok; cbn.
  rewrite Hdata; cbn. rewrite Htrue; cbn.
  by destruct (start_time_set self).
Qed.

Lemma check_user_stamps_session_once_witness :
  let body := [(py "data", PList [stream_record "Foo"])] in
  let w := sample_world ∅ (GetResponse 200 (Ret (PDict body))) (CallExit 0 None) in
  let out := check_user sample_recorder w in
  out.1.1 = Ret (ONLINE, PDict body)
  ∧ out.1.2 = set_stream_start_time (Some (py "20250101")) sample_recorder
  ∧ (check_user out.1.2 out.2).1.2 = out.1.2.
Proof.
  intros body w out.
  destruct (check_user_stamps_session_once sample_recorder w 200 body
              (PList [stream_record "Foo"])) as [Hret Hstamp];
    [reflexivity | reflexivity | reflexivity | reflexivity |].
  cbn in Hstamp. destruct Hstamp as [Hself _].
  split; [exact Hret |]. split; [exact Hself |].
  destruct (check_user_stamps_session_once out.1.2 out.2 200 body
              (PList [stream_record "Foo"])) as [_ Hagain];
    [reflexivity | reflexivity | reflexivity | reflexivity |].
  fold out in Hself. rewrite Hself in Hagain |- *. cbn in Hagain.
  exact (proj1 Hagain).
Defined.

(** X3: a response that passes [raise_for_status] but whose body has not
    the expected shape. A null body is OFFLINE with no info. A dictionary
    without a [data] entry raises [KeyError], any other value raises
    [TypeError]: the [except] clause does not catch these, and they leave
    the polling loop at once, with nothing but the request done. *)
Theorem check_user_unexpected_body unicode (fuel : nat) (self : TwitchRecorder)
    (w : World) (code : nat) (body : pyval) :
  w_get w 0 = GetResponse code (Ret body) →
  response_ok code = true →
  match body with
  | PNone => (check_user self w).1.1 = Ret (OFFLINE, PNone)
  | PDict d =>
      dict_lookup (py "data") d = None →
      (check_user self w).1.1 = Raise KeyError
      ∧ check_stream_continuously unicode (S fuel) self w
        = (Raise KeyError, self, (check_user self w).2)
  | _ =>
      (check_user self w).1.1 = Raise TypeError
      ∧ check_stream_continuously unicode (S fuel) self w
        = (Raise TypeError, self, (check_user self w).2)
  end.
Proof.
  intros Hget Hok.
  assert (Hraise : ∀ e : exn, is_RequestException e = false →
            subscript body (py "data") = Raise e → body ≠ PNone →
            (check_user self w).1.1 = Raise e ∧ (check_user self w).1.2 = self).
  { intros e He Hsub Hbody.
    unfold_check_user; cbn. rewrite Hget; cbn. rewrite Hok; cbn.
    destruct body as [| b | z | s | l | d]; try done; cbn in Hsub |- *;
      try (by simplify_eq).
    by destruct (dict_lookup (py "data") d); simplify_eq/=. }
  assert (Hloop : ∀ e : exn,
            (check_user self w).1.1 = Raise e ∧ (check_user self w).1.2 = self →
            (check_user self w).1.1 = Raise e
            ∧ check_stream_continuously unicode (S fuel) self w
              = (Raise e, self, (check_user self w).2)).
  { intros e [He Hself]. split; [exact He |].
    rewrite check_stream_continuously_round.
    destruct (check_user self w) as [[r self1] w1]. cbn in He, Hself |- *.
    by subst. }
  destruct body as [| b | z | s | l | d]; try (by apply Hloop, Hraise).
  - unfold_check_user; cbn. rewrite Hget; cbn. by rewrite Hok.
  - intros Hdata. apply Hloop, Hraise; [done | | done].
    cbn. by rewrite Hdata.
Qed.

Lemma check_user_unexpected_body_witness :
  let w := sample_world ∅ (GetResponse 200 (Ret (PDict [(py "error", PStr [])])))
             (CallExit 0 None) in
  (check_user sample_recorder w).1.1 = Raise KeyError
  ∧ check_stream_continuously sample_unicode 3 sample_recorder w
    = (Raise KeyError, sample_recorder, (check_user sample_recorder w).2).
Proof.
  intros w.
  exact (check_user_unexpected_body sample_unicode 2 sample_recorder w 200
           (PDict [(py "error", PStr [])]) eq_refl eq_refl eq_refl).
Defined.

(** X4: a body that cannot be decoded. What [r.json()] raises decides:
    an exception of the [requests] family is caught and gives ERROR with
    no info, any other one is raised to the caller. In both cases the
    recorder is left as it was. *)
Theorem check_user_undecodable_body (self : TwitchRecorder) (w : World)
    (code : nat) (e : exn) :
  w_get w 0 = GetResponse code (Raise e) →
  response_ok code = true →
  (check_user self w).1.1
  = (if is_RequestException e then Ret (ERROR, PNone) else Raise e)
  ∧ (check_user self w).1.2 = self.
Proof.
  intros Hget Hok.
  unfold_check_user; cbn. rewrite Hget; cbn. rewrite Hok; cbn.
  destruct (is_RequestException e); [| done].
  by rewrite except_clause_keeps_status.
Qed.

Lemma check_user_undecodable_body_witness :
  let w := sample_world ∅ (GetResponse 200 (Raise ValueError))
             (CallExit 0 None) in
  (check_user sample_recorder w).1.1 = Raise ValueError
  ∧ (check_user sample_recorder w).1.2 = sample_recorder.
Proof.
  apply (check_user_undecodable_body sample_recorder _ 200 ValueError);
    reflexivity.
Defined.

(** ** The polling loop, continued *)

(** A status check uses up one answer of the API and nothing else of the
    world's oracles that the offline rounds read. *)
Lemma check_user_next_answers (self : TwitchRecorder) (w : World) (n : nat) :
  w_get (check_user self w).2 n = w_get w (S n).
Proof.
  unfold_check_user; cbn.
  destruct (w_get w 0) as [e | code body]; cbn.
  - destruct (is_RequestException e); [| reflexivity].
    by rewrite except_clause_keeps_status.
  - destruct (response_ok code); cbn;
      [| by rewrite except_clause_keeps_status].
    destruct body as [v | e]; cbn.
    + repeat (case_match; simplify_eq/=;
              rewrite ?except_clause_keeps_status in * );
        by simplify_eq/=.
    + destruct (is_RequestException e); [| reflexivity].
      by rewrite except_clause_keeps_status.
Qed.

(** The controller's answer to OFFLINE, when there is no Stop
    notification to post or the post returns. *)
Lemma on_status_offline unicode (info : pyval) (self : TwitchRecorder) (w : World) :
  start_time_set self = false ∨ w_webhook w 0 = Ret () →
  let out := on_status unicode OFFLINE info self w in
  out.1.1 = Ret ()
  ∧ out.1.2 = (if start_time_set self then set_stream_start_time None self
               else self)
  ∧ w_trace out.2
    = w_trace w
      ++ (if start_time_set self then [stop_notification self] else [])
      ++ [ELog INFO (MsgOffline (username self) (refresh self));
          ESleep (refresh self)]
  ∧ w_fs out.2 = w_fs w
  ∧ w_get out.2 = w_get w.
Proof.
  unfold stop_notification, on_status, send_stream_stop_notification,
    send_discord_message, modify_self, logging_info, time_sleep, pop_webhook.
  unfold_monad. cbn.
  intros [Hunset | Hposted].
  - rewrite Hunset. cbn. rewrite <- ?app_assoc. by repeat split.
  - destruct (start_time_set self); cbn; rewrite ?Hposted; cbn;
      rewrite <- ?app_assoc; by repeat split.
Qed.

(** The Stop notification is posted before the stamp is cleared: when the
    post raises, the branch is left with the stamp in place. *)
Lemma on_status_offline_unposted unicode (info : pyval) (self : TwitchRecorder)
    (w : World) (e : exn) :
  start_time_set self = true →
  w_webhook w 0 = Raise e →
  let out := on_status unicode OFFLINE info self w in
  out.1.1 = Raise e
  ∧ out.1.2 = self
  ∧ w_trace out.2 = w_trace w ++ [stop_notification self]
  ∧ w_fs out.2 = w_fs w
  ∧ w_logfile out.2 = w_logfile w.
Proof.
  unfold stop_notification, on_status, send_stream_stop_notification,
    send_discord_message, modify_self, logging_info, time_sleep, pop_webhook.
  unfold_monad. cbn. intros -> ->. by cbn.
Qed.

(** One round of the loop on an empty [data] array. *)
Lemma offline_round unicode (fuel : nat) (self : TwitchRecorder) (w : World) :
  offline_answer (w_get w 0) →
  start_time_set self = false ∨ w_webhook w 0 = Ret () →
  ∃ self' w',
    check_stream_continuously unicode (S fuel) self w
    = check_stream_continuously unicode fuel self' w'
    ∧ start_time_set self' = false
    ∧ config_of self' = config_of self
    ∧ w_trace w'
      = w_trace w
        ++ status_request self
           :: (if start_time_set self then [stop_notification self] else [])
        ++ [ELog INFO (MsgOffline (username self) (refresh self));
            ESleep (refresh self)]
    ∧ w_fs w' = w_fs w
    ∧ ∀ n, w_get w' n = w_get w (S n).
Proof.
  intros (code & d & Hget & Hok & Hdata) Hposted.
  destruct (check_user_success self w code d _ Hget Hok Hdata) as [Hret Hself].
  specialize (Hself eq_refl). cbn in Hret.
  pose proof (check_user_trace self w) as Htrace.
  pose proof (check_user_frame self w) as (_ & Hfs & _).
  pose proof (check_user_next_answers self w) as Hnext.
  pose proof (check_user_keeps_webhook self w) as [Hwebhook _].
  rewrite check_stream_continuously_round.
  destruct (check_user self w) as [[r self1] w1].
  cbn in Hret, Hself, Htrace, Hfs, Hnext, Hwebhook.
  subst r self1. cbn [fst snd].
  destruct (on_status_offline unicode (PDict d) self w1)
    as (Hret2 & Hself2 & Htrace2 & Hfs2 & Hget2).
  { by rewrite Hwebhook. }
  destruct (on_status unicode OFFLINE (PDict d) self w1) as [[r2 self2] w2].
  cbn in Hret2, Hself2, Htrace2, Hfs2, Hget2. subst r2.
  exists self2, w2. split; [reflexivity |].
  split; [subst self2; by destruct (start_time_set self) eqn:E |].
  split; [subst self2; by destruct (start_time_set self) |].
  split; [by rewrite Htrace2, Htrace, <- app_assoc |].
  split; [congruence |].
  intros n. by rewrite Hget2.
Qed.





(** The same rounds when the webhook cannot be reached: the post of the
    Stop notification ends the loop in the first round. *)
Example offline_round_without_webhook :
  let w := world_without_webhook ∅
             (GetResponse 200 (Ret (PDict [(py "data", PList [])]))) in
  let self := set_stream_start_time (Some (py "20250101")) sample_recorder in
  let out := check_stream_continuously sample_unicode 4 self w in
  out.1.1 = Raise (RequestException None)
  ∧ new_events w out.2 = [status_request self; stop_notification self].
Proof. by vm_compute. Qed.

(** The ONLINE branch, cut at the capture, once the Start notification
    has been posted. *)
Lemma on_status_online_eq unicode (self : TwitchRecorder) (w : World)
    (info channel : pyval) (filename : pystr) :
  w_webhook w 0 = Ret () →
  first_channel info = Ret channel →
  capture_filename unicode (username self) (w_now w 0) channel = Ret filename →
  on_status unicode ONLINE info self w =
    match w_streamlink w 0 with
    | CallRaises e => (Raise (OSError e), self, capture_world self filename w)
    | CallExit _ written =>
        after_capture self filename self
          (match written with
           | Some content =>
               set_fs (<[recorded_file self filename := File content]> (w_fs w))
                 (capture_world self filename w)
           | None => capture_world self filename w
           end)
    end.
Proof.
  intros Hposted Hchannel Hname.
  unfold after_capture, capture_world, online_prefix, recorded_file,
    processed_file.
  unfold on_status, send_stream_start_notification, send_discord_message,
    subprocess_call_streamlink, logging_info, time_sleep, pop_now,
    pop_webhook, pop_streamlink.
  unfold_monad. unfold emit, log_record, set_fs. cbn.
  rewrite Hposted; cbn. rewrite Hchannel; cbn. rewrite Hname; cbn.
  rewrite <- !app_assoc. cbn.
  destruct (w_streamlink w 0) as [e | code [content |]]; reflexivity.
Qed.

Lemma after_capture_processes (self : TwitchRecorder) (filename : pystr)
    (w : World) :
  os_path_exists (w_fs w) (recorded_file self filename) = true →
  after_capture self filename self w =
    match process_recorded_file (recorded_file self filename)
            (processed_file self filename) self
            (log_record INFO MsgRecordingDone w) with
    | (Ret _, self', w') =>
        (Ret (), self',
         emit (ESleep (refresh self)) (log_record INFO MsgProcessingDone w'))
    | (Raise e, self', w') => (Raise e, self', w')
    end.
Proof.
  intros Hexists. unfold after_capture, logging_info, time_sleep.
  unfold_monad. cbn. rewrite Hexists.
  by destruct (process_recorded_file _ _ self _) as [[[[] | e] self'] w'].
Qed.

Lemma after_capture_skips (self : TwitchRecorder) (filename : pystr) (w : World) :
  os_path_exists (w_fs w) (recorded_file self filename) = false →
  after_capture self filename self w =
    (Ret (), self,
     emit (ESleep (refresh self))
       (log_record INFO MsgProcessingDone
          (log_record INFO MsgSkipFixing
             (log_record INFO MsgRecordingDone w)))).
Proof.
  intros Hexists. unfold after_capture, logging_info, time_sleep.
  unfold_monad. cbn. by rewrite Hexists.
Qed.

(** The log file after two batches of records. *)
Lemma logged_app (records : option (list (loglevel * logmsg)))
    (l1 l2 : list (loglevel * logmsg)) :
  (λ r, r ++ l2) <$> ((λ r, r ++ l1) <$> records)
  = (λ r, r ++ l1 ++ l2) <$> records.
Proof. destruct records; cbn; by rewrite <- ?app_assoc. Qed.

Lemma logged_nil (w : World) : logged [] w = w_logfile w.
Proof. unfold logged. destruct (w_logfile w); cbn; by rewrite ?app_nil_r. Qed.

Lemma logged_trans (w w1 : World) (l1 l2 : list event) :
  w_logfile w1 = logged l1 w → logged l2 w1 = logged (l1 ++ l2) w.
Proof.
  unfold logged, log_records. intros ->.
  by rewrite logged_app, omap_app.
Qed.

(** A run of the transcoder that leaves [output] at the destination. *)
Lemma process_transcoded (self : TwitchRecorder) (w : World) (raw dest : path)
    (content output : bytes) (returncode : Z) :
  disable_ffmpeg self = false →
  w_ffmpeg w 0 = CallExit returncode (Some output) →
  w_fs w !! raw = Some (File content) →
  dir_writable (w_fs w) (dirname raw) = true →
  dest ≠ raw → dest ≠ dirname raw →
  ∃ w',
    process_recorded_file raw dest self w = (Ret (), self, w')
    ∧ w_fs w' = delete raw (<[dest := File output]> (w_fs w))
    ∧ w_trace w' = w_trace w ++ [ELog INFO (MsgFixing raw);
                                 EFfmpeg (ffmpeg_path self) raw dest]
    ∧ w_logfile w'
      = (λ records, records ++ [(INFO, MsgFixing raw)]) <$> w_logfile w
    ∧ w_get w' = w_get w.
Proof.
  intros Hon Hrun Hraw Hdir Hne Hne'.
  assert (Hdir' : dir_writable (<[dest := File output]> (w_fs w)) (dirname raw)
                  = true).
  { unfold dir_writable, dir_access in *.
    destruct (dirname raw) as [| x d] eqn:E; [done |].
    by rewrite lookup_insert_ne. }
  unfold_process. unfold emit, log_record, set_fs, os_remove. cbn.
  rewrite Hon; cbn. rewrite Hrun; cbn.
  rewrite lookup_insert_ne by done. rewrite Hraw, Hdir'. cbn.
  eexists. split; [reflexivity |]. cbn. by rewrite <- app_assoc.
Qed.

Lemma dirname_recorded_file (self : TwitchRecorder) (filename : pystr) :
  dirname (recorded_file self filename)
  = os_path_join (root_path self) [py "recorded"; username self].
Proof.
  unfold dirname, recorded_file, os_path_join.
  change [py "recorded"; username self; filename]
    with ([py "recorded"; username self] ++ [filename]).
  by rewrite app_assoc, removelast_last.
Qed.

Lemma dirname_processed_file (self : TwitchRecorder) (filename : pystr) :
  dirname (processed_file self filename)
  = os_path_join (root_path self) [py "processed"; username self].
Proof.
  unfold dirname, processed_file, os_path_join.
  change [py "processed"; username self; filename]
    with ([py "processed"; username self] ++ [filename]).
  by rewrite app_assoc, removelast_last.
Qed.

Lemma capture_paths_differ (self : TwitchRecorder) (filename : pystr) :
  processed_file self filename ≠ recorded_file self filename
  ∧ processed_file self filename ≠ dirname (recorded_file self filename)
  ∧ recorded_file self filename ≠ dirname (processed_file self filename).
Proof.
  split; [| split].
  - unfold processed_file, recorded_file, os_path_join. by intros [=]%app_inv_head.
  - rewrite dirname_recorded_file. unfold processed_file, os_path_join.
    intros H%(f_equal length). rewrite !length_app in H. cbn in H. lia.
  - rewrite dirname_processed_file. unfold recorded_file, os_path_join.
    intros H%(f_equal length). rewrite !length_app in H. cbn in H. lia.
Qed.

Lemma dir_access_insert (fs : gmap path node) (p d : path) (n : node) :
  p ≠ d → dir_access (<[p := n]> fs) d = dir_access fs d.
Proof.
  intros Hne. unfold dir_access. destruct d; [done |].
  by rewrite lookup_insert_ne.
Qed.

(** X6: a round on a live channel, processing enabled, the user name
    being a plain name. Once the Start notification has been posted, the
    capture is started on the file named after the user, the clock and
    the title of the first record; when the capture has written that
    file and the transcoder has written its output, the processed file
    holds that output, the raw file is gone, the loop sleeps [refresh]
    seconds and goes on. The return codes of both processes are ignored.
    Apart from these two files only the log file is written: it gains
    the records of the round. *)
Theorem online_round_records_and_transcodes unicode (self : TwitchRecorder)
    (w : World) (info channel : pyval) (filename : pystr)
    (content output : bytes) (code code' : Z) :
  plain_name (username self) →
  w_webhook w 0 = Ret () →
  first_channel info = Ret channel →
  capture_filename unicode (username self) (w_now w 0) channel = Ret filename →
  w_streamlink w 0 = CallExit code (Some content) →
  disable_ffmpeg self = false →
  w_ffmpeg w 0 = CallExit code' (Some output) →
  dir_writable (w_fs w) (dirname (recorded_file self filename)) = true →
  let out := on_status unicode ONLINE info self w in
  out.1.1 = Ret ()
  ∧ out.1.2 = self
  ∧ new_events w out.2
    = online_prefix self filename
      ++ [ELog INFO MsgRecordingDone;
          ELog INFO (MsgFixing (recorded_file self filename));
          EFfmpeg (ffmpeg_path self) (recorded_file self filename)
            (processed_file self filename);
          ELog INFO MsgProcessingDone; ESleep (refresh self)]
  ∧ w_fs out.2
    = delete (recorded_file self filename)
        (<[processed_file self filename := File output]>
           (<[recorded_file self filename := File content]> (w_fs w)))
  ∧ w_logfile out.2 = logged (new_events w out.2) w.
Proof.
  intros _ Hposted Hchannel Hname Hcapture Hon Hrun Hdir out.
  destruct (capture_paths_differ self filename) as (Hne1 & Hne2 & _).
  set (w1 := log_record INFO MsgRecordingDone
               (set_fs (<[recorded_file self filename := File content]> (w_fs w))
                  (capture_world self filename w))).
  destruct (process_transcoded self w1 (recorded_file self filename)
              (processed_file self filename) content output code')
    as (w2 & Hprocess & Hfs & Htrace & Hlog & _); try done.
  { cbn. apply lookup_insert_eq. }
  { cbn. unfold dir_writable in *. rewrite dir_access_insert; [done |].
    intros H%(f_equal length). rewrite dirname_recorded_file in H.
    unfold recorded_file, os_path_join in H. rewrite !length_app in H.
    cbn in H. lia. }
  assert (Hout : out = (Ret (), self,
                        emit (ESleep (refresh self))
                          (log_record INFO MsgProcessingDone w2))).
  { unfold out.
    rewrite (on_status_online_eq _ _ _ _ _ _ Hposted Hchannel Hname), Hcapture.
    rewrite after_capture_processes.
    - fold w1. by rewrite Hprocess.
    - cbn. unfold os_path_exists. by rewrite lookup_insert_eq. }
  assert (Hevents : new_events w out.2
                    = online_prefix self filename
                      ++ [ELog INFO MsgRecordingDone;
                          ELog INFO (MsgFixing (recorded_file self filename));
                          EFfmpeg (ffmpeg_path self) (recorded_file self filename)
                            (processed_file self filename);
                          ELog INFO MsgProcessingDone; ESleep (refresh self)]).
  { rewrite Hout. apply new_events_app. cbn. rewrite Htrace. cbn.
    by rewrite <- !app_assoc. }
  rewrite Hevents. rewrite Hout. cbn [fst snd].
  split; [done |]. split; [done |]. split; [done |].
  split; [cbn; by rewrite Hfs |].
  cbn. rewrite Hlog. cbn. unfold logged. by rewrite !logged_app.
Qed.

(** X7: when the capture ends without having written its file, the
    post-processor is not called: once the Start notification has been
    posted and the capture has returned, the transcoder is not started,
    the skip is logged and the loop goes on. No file is touched but the
    log file, which gains the four records of the round. *)
Theorem online_round_without_file_skips unicode (self : TwitchRecorder)
    (w : World) (info channel : pyval) (filename : pystr) (code : Z) :
  w_webhook w 0 = Ret () →
  first_channel info = Ret channel →
  capture_filename unicode (username self) (w_now w 0) channel = Ret filename →
  w_streamlink w 0 = CallExit code None →
  w_fs w !! recorded_file self filename = None →
  let out := on_status unicode ONLINE info self w in
  out.1.1 = Ret ()
  ∧ out.1.2 = self
  ∧ new_events w out.2
    = online_prefix self filename
      ++ [ELog INFO MsgRecordingDone; ELog INFO MsgSkipFixing;
          ELog INFO MsgProcessingDone; ESleep (refresh self)]
  ∧ w_fs out.2 = w_fs w
  ∧ w_logfile out.2
    = (λ records,
         records ++ [(INFO, MsgOnline (username self)); (INFO, MsgRecordingDone);
                     (INFO, MsgSkipFixing); (INFO, MsgProcessingDone)])
      <$> w_logfile w
  ∧ ∀ n, w_ffmpeg out.2 n = w_ffmpeg w n.
Proof.
  intros Hposted Hchannel Hname Hcapture Hnone out.
  unfold out.
  rewrite (on_status_online_eq _ _ _ _ _ _ Hposted Hchannel Hname), Hcapture.
  rewrite after_capture_skips.
  - cbn [fst snd]. split; [done |]. split; [done |].
    split; [apply new_events_app; cbn; by rewrite <- !app_assoc |].
    split; [done |]. split; [| done].
    cbn. by rewrite !logged_app.
  - cbn. unfold os_path_exists. by rewrite Hnone.
Qed.

(** X8: the capture is not guarded. When the Start notification has been
    posted and [streamlink] cannot be started, the [OSError] of
    [subprocess.call] ends the polling loop in that round: nothing is
    logged after the start attempt, no later round takes place, and no
    file is touched but the log file, which has gained the record that
    the channel is online. *)
Theorem online_round_capture_not_started unicode (fuel : nat)
    (self self1 : TwitchRecorder) (w w1 : World) (info channel : pyval)
    (filename : pystr) (e : oserror) :
  check_user self w = (Ret (ONLINE, info), self1, w1) →
  w_webhook w1 0 = Ret () →
  first_channel info = Ret channel →
  capture_filename unicode (username self1) (w_now w1 0) channel = Ret filename →
  w_streamlink w1 0 = CallRaises e →
  let out := check_stream_continuously unicode (S fuel) self w in
  out.1.1 = Raise (OSError e)
  ∧ new_events w1 out.2 = online_prefix self1 filename
  ∧ w_fs out.2 = w_fs w1
  ∧ w_logfile out.2
    = (λ records, records ++ [(INFO, MsgOnline (username self1))])
      <$> w_logfile w1.
Proof.
  intros Hcheck Hposted Hchannel Hname Hcapture out.
  unfold out. rewrite check_stream_continuously_round, Hcheck. cbn [fst snd].
  rewrite (on_status_online_eq _ _ _ _ _ _ Hposted Hchannel Hname), Hcapture.
  cbn [fst snd]. split; [done |].
  split; [by apply new_events_app |]. by split.
Qed.

(** X9: a first record without a string title ends the round with an
    exception, after the Start notification has been posted and before
    any capture is started: [TypeError] for a dictionary (the title is
    missing or not a string), [AttributeError] for a value that has no
    [get]. No file is touched but the log file, which has gained the
    record that the channel is online. *)
Theorem online_round_unusable_record unicode (self : TwitchRecorder) (w : World)
    (info channel : pyval) :
  w_webhook w 0 = Ret () →
  first_channel info = Ret channel →
  (∀ title, dict_get channel (py "title") ≠ Ret (PStr title)) →
  let out := on_status unicode ONLINE info self w in
  out.1.1 = Raise (match channel with
                   | PDict _ => TypeError
                   | _ => AttributeError
                   end)
  ∧ out.1.2 = self
  ∧ new_events w out.2
    = [EWebhook (discord_webhook_url self) (py "Stream Started")
         (stream_for (username self) ++ py " has started!") 65280;
       ELog INFO (MsgOnline (username self))]
  ∧ w_fs out.2 = w_fs w
  ∧ w_logfile out.2
    = (λ records, records ++ [(INFO, MsgOnline (username self))])
      <$> w_logfile w.
Proof.
  intros Hposted Hchannel Htitle out.
  assert (Hname : ∀ now, capture_filename unicode (username self) now channel
                         = Raise (match channel with
                                  | PDict _ => TypeError
                                  | _ => AttributeError
                                  end)).
  { intros now. unfold capture_filename.
    destruct channel as [| b | z | s | l | d]; try reflexivity.
    cbn in Htitle |- *.
    destruct (dict_lookup (py "title") d) as [[| b | z | s | l | d'] |];
      try reflexivity.
    by destruct (Htitle s). }
  unfold out, new_events.
  unfold on_status, send_stream_start_notification, send_discord_message,
    logging_info, pop_now, pop_webhook.
  unfold_monad. unfold emit, log_record. cbn.
  rewrite Hposted; cbn. rewrite Hchannel; cbn. rewrite Hname; cbn.
  rewrite <- !app_assoc, drop_app_length. by repeat split.
Qed.

(** X10: with processing disabled, a move that fails after a capture is
    not caught. When the Start notification has been posted, the capture
    has written its file and the processed file, which is not there yet,
    cannot be made in its directory, the [IOError] of [shutil.move]
    leaves the ONLINE branch: the raw capture stays where the capture
    wrote it, and neither the end of processing is logged nor the sleep
    done. *)
Theorem online_round_move_failure_ends_loop unicode (self : TwitchRecorder)
    (w : World) (info channel : pyval) (filename : pystr) (content : bytes)
    (code : Z) (e : exn) :
  w_webhook w 0 = Ret () →
  first_channel info = Ret channel →
  capture_filename unicode (username self) (w_now w 0) channel = Ret filename →
  w_streamlink w 0 = CallExit code (Some content) →
  disable_ffmpeg self = true →
  w_fs w !! processed_file self filename = None →
  dir_access (w_fs w) (dirname (processed_file self filename)) = Raise e →
  let out := on_status unicode ONLINE info self w in
  out.1.1 = Raise e
  ∧ is_IOError e = true
  ∧ w_fs out.2 = <[recorded_file self filename := File content]> (w_fs w)
  ∧ new_events w out.2
    = online_prefix self filename
      ++ [ELog INFO MsgRecordingDone;
          ELog INFO (MsgMoving (recorded_file self filename))].
Proof.
  intros Hposted Hchannel Hname Hcapture Hoff Habsent Haccess out.
  destruct (capture_paths_differ self filename) as (Hne1 & _ & Hne3).
  set (fs1 := <[recorded_file self filename := File content]> (w_fs w)).
  assert (Hmove : shutil_move fs1 (recorded_file self filename)
                    (processed_file self filename) = (Raise e, fs1)).
  { rewrite (shutil_move_file _ _ _ content).
    - unfold fs1, os_path_isfile.
      rewrite lookup_insert_ne, Habsent by done.
      by rewrite dir_access_insert, Haccess.
    - apply lookup_insert_eq.
    - unfold os_path_isdir, fs1. by rewrite lookup_insert_ne, Habsent.
    - done. }
  unfold out.
  rewrite (on_status_online_eq _ _ _ _ _ _ Hposted Hchannel Hname), Hcapture.
  rewrite after_capture_processes;
    [| cbn; unfold os_path_exists; by rewrite lookup_insert_eq].
  unfold process_recorded_file, logging_info. unfold_monad. cbn.
  rewrite Hoff. cbn. fold fs1. rewrite Hmove. cbn.
  split; [done |]. split; [by eapply dir_access_IOError |]. split; [done |].
  apply new_events_app. cbn. by rewrite <- !app_assoc.
Qed.

Lemma appended_refl (x : option (list (loglevel * logmsg))) : appended_to x x.
Proof. exists []. destruct x; cbn; by rewrite ?app_nil_r. Qed.

Lemma appended_trans (x y z : option (list (loglevel * logmsg))) :
  appended_to x y → appended_to y z → appended_to x z.
Proof. intros [l1 ->] [l2 ->]. exists (l1 ++ l2). apply logged_app. Qed.

Lemma appended_record (x : option (list (loglevel * logmsg)))
    (record : loglevel * logmsg) :
  appended_to x ((λ r, r ++ [record]) <$> x).
Proof. by exists [record]. Qed.

(** The post-processor only appends to the log file. *)
Lemma process_recorded_file_appends (self : TwitchRecorder) (w : World)
    (raw dest : path) :
  appended_to (w_logfile w) (w_logfile (process_recorded_file raw dest self w).2).
Proof.
  unfold_process; cbn. unfold os_remove.
  repeat (case_match; simplify_eq/=).
  all: repeat (eapply appended_trans; [| apply appended_record]).
  all: apply appended_refl.
Qed.

(** So does the controller's answer to a status. *)
Lemma on_status_appends unicode (status : TwitchResponseStatus)
    (info : pyval) (self : TwitchRecorder) (w : World) :
  appended_to (w_logfile w) (w_logfile (on_status unicode status info self w).2).
Proof.
  destruct status.
  - destruct (w_webhook w 0) as [[] | e] eqn:Hposted; cycle 1.
    { destruct (on_status_online_unposted unicode self w info e Hposted)
        as (_ & _ & _ & _ & ->). apply appended_refl. }
    destruct (first_channel info) as [channel | e] eqn:Hchannel; cycle 1.
    { unfold on_status, send_stream_start_notification, send_discord_message,
        logging_info, pop_webhook. unfold_monad. cbn.
      rewrite Hposted; cbn. rewrite Hchannel. cbn. apply appended_record. }
    destruct (capture_filename unicode (username self) (w_now w 0) channel)
      as [filename | e] eqn:Hname; cycle 1.
    { unfold on_status, send_stream_start_notification, send_discord_message,
        logging_info, pop_now, pop_webhook. unfold_monad. unfold emit. cbn.
      rewrite Hposted; cbn. rewrite Hchannel; cbn. rewrite Hname. cbn.
      apply appended_record. }
    rewrite (on_status_online_eq _ _ _ _ _ _ Hposted Hchannel Hname).
    destruct (w_streamlink w 0) as [e | code written];
      [apply appended_record |].
    match goal with
    | |- context [after_capture self filename self ?w'] => set (w1 := w')
    end.
    assert (Hw1 : appended_to (w_logfile w) (w_logfile w1))
      by (unfold w1; destruct written; apply appended_record).
    destruct (os_path_exists (w_fs w1) (recorded_file self filename)) eqn:Hex.
    + rewrite (after_capture_processes _ _ _ Hex).
      pose proof (process_recorded_file_appends self
                    (log_record INFO MsgRecordingDone w1)
                    (recorded_file self filename) (processed_file self filename))
        as Hprocess.
      destruct (process_recorded_file _ _ self _) as [[[[] | e] self'] w'];
        cbn in Hprocess |- *;
        repeat (eapply appended_trans; [| apply appended_record]);
        (eapply appended_trans; [| exact Hprocess]);
        (eapply appended_trans; [| apply appended_record]); exact Hw1.
    + rewrite (after_capture_skips _ _ _ Hex). cbn.
      repeat (eapply appended_trans; [| apply appended_record]). exact Hw1.
  - unfold on_status, send_stream_stop_notification, send_discord_message,
      modify_self, logging_info, time_sleep, pop_webhook.
    unfold_monad. cbn.
    destruct (start_time_set self); cbn;
      [destruct (w_webhook w 0) as [[] | e]; cbn |];
      first [apply appended_record | apply appended_refl].
  - unfold_loop. cbn. apply appended_record.
  - unfold_loop. cbn. destruct (w_token w 0); cbn;
      [destruct (w_webhook w 0); cbn |]; apply appended_record.
  - unfold_loop. cbn. destruct (w_webhook w 0) as [[] | e]; cbn;
      apply appended_record.
Qed.

(** The controller's answer to a status never writes the configuration,
    and changes no path shorter than the capture files. *)
Lemma on_status_frame unicode (status : TwitchResponseStatus)
    (info : pyval) (self : TwitchRecorder) (w : World) :
  config_of (on_status unicode status info self w).1.2 = config_of self
  ∧ ∀ q, length q < length (root_path self) + 3 →
         w_fs (on_status unicode status info self w).2 !! q = w_fs w !! q.
Proof.
  destruct status.
  - destruct (w_webhook w 0) as [[] | e] eqn:Hposted; cycle 1.
    { destruct (on_status_online_unposted unicode self w info e Hposted)
        as (_ & -> & _ & -> & _). done. }
    destruct (first_channel info) as [channel | e] eqn:Hchannel; cycle 1.
    { unfold on_status, send_stream_start_notification, send_discord_message,
        logging_info, pop_webhook. unfold_monad. cbn.
      rewrite Hposted; cbn. by rewrite Hchannel. }
    destruct (capture_filename unicode (username self) (w_now w 0) channel)
      as [filename | e] eqn:Hname; cycle 1.
    { unfold on_status, send_stream_start_notification, send_discord_message,
        logging_info, pop_now, pop_webhook. unfold_monad. unfold emit. cbn.
      rewrite Hposted; cbn. rewrite Hchannel; cbn. by rewrite Hname. }
    assert (Hlen : length (recorded_file self filename) = length (root_path self) + 3
                   ∧ length (processed_file self filename)
                     = length (root_path self) + 3).
    { unfold recorded_file, processed_file, os_path_join.
      by rewrite !length_app. }
    destruct Hlen as [Hlen1 Hlen2].
    rewrite (on_status_online_eq _ _ _ _ _ _ Hposted Hchannel Hname).
    destruct (w_streamlink w 0) as [e | code written]; [done |].
    match goal with
    | |- context [after_capture self filename self ?w'] => set (w1 := w')
    end.
    assert (Hw1 : ∀ q, length q < length (root_path self) + 3 →
                       w_fs w1 !! q = w_fs w !! q).
    { intros q Hq. unfold w1. destruct written; cbn; [| done].
      rewrite lookup_insert_ne; [done |]. intros <-. lia. }
    destruct (os_path_exists (w_fs w1) (recorded_file self filename)) eqn:Hex.
    + rewrite (after_capture_processes _ _ _ Hex).
      destruct (process_recorded_file_step self
                  (log_record INFO MsgRecordingDone w1)
                  (recorded_file self filename) (processed_file self filename))
        as (events & _ & _ & Hself & _ & _ & Hframe).
      cbn in Hframe.
      destruct (process_recorded_file _ _ self _) as [[[[] | e] self'] w'];
        cbn in Hself, Hframe |- *; subst self'; (split; [done |]);
        intros q Hq; rewrite Hframe, ?Hw1; (done || lia).
    + rewrite (after_capture_skips _ _ _ Hex). cbn. split; [done |].
      intros q Hq. by apply Hw1.
  - destruct (start_time_set self) eqn:Hstamped;
      [destruct (w_webhook w 0) as [[] | e] eqn:Hposted |].
    + destruct (on_status_offline unicode info self w (or_intror Hposted))
        as (_ & -> & _ & -> & _). by rewrite Hstamped.
    + by destruct (on_status_offline_unposted unicode info self w e Hstamped
                     Hposted) as (_ & -> & _ & -> & _).
    + destruct (on_status_offline unicode info self w (or_introl Hstamped))
        as (_ & -> & _ & -> & _). by rewrite Hstamped.
  - done.
  - unfold_loop. cbn. destruct (w_token w 0); [| done].
    cbn. by destruct (w_webhook w 0).
  - by destruct (on_status_error unicode info self w) as (-> & -> & _).
Qed.

Lemma config_of_root_path (a b : TwitchRecorder) :
  config_of a = config_of b → root_path a = root_path b.
Proof. unfold config_of. by intros [=]. Qed.

(** X11: however long the polling loop runs and however it ends, it
    writes no attribute of the recorder but the credential and the session
    stamp, and, the user name being a plain name, it touches no path
    above the files of the two directories of the user: the root,
    [recorded], [processed] and the two user directories are neither
    created nor removed nor replaced by it. The log file, which is not
    among these paths, is only appended to. *)
Theorem loop_keeps_config_and_directories unicode (fuel : nat)
    (self : TwitchRecorder) (w : World) :
  plain_name (username self) →
  let out := check_stream_continuously unicode fuel self w in
  config_of out.1.2 = config_of self
  ∧ (∀ q, length q < length (root_path self) + 3 →
          w_fs out.2 !! q = w_fs w !! q)
  ∧ appended_to (w_logfile w) (w_logfile out.2).
Proof.
  intros _. revert self w. induction fuel as [| fuel IH]; intros self w.
  { split; [done |]. split; [done |]. apply appended_refl. }
  cbv zeta. rewrite check_stream_continuously_round.
  pose proof (check_user_frame self w) as (_ & Hfs & Hconfig & _).
  pose proof (check_user_keeps_webhook self w) as [_ Hlog].
  destruct (check_user self w) as [[[[status info] | e] self1] w1];
    cbn [fst snd] in Hfs, Hconfig, Hlog |- *; cycle 1.
  { split; [done |]. split; [by rewrite Hfs |].
    rewrite Hlog. apply appended_refl. }
  pose proof (config_of_root_path _ _ Hconfig) as Hroot.
  pose proof (on_status_frame unicode status info self1 w1) as [Hconfig' Hdirs].
  pose proof (on_status_appends unicode status info self1 w1) as Hlog'.
  rewrite Hroot in Hdirs. rewrite Hlog in Hlog'.
  destruct (on_status unicode status info self1 w1) as [[[[] | e] self2] w2];
    cbn [fst snd] in Hconfig', Hdirs, Hlog' |- *.
  - assert (Hroot2 : root_path self2 = root_path self)
      by (rewrite (config_of_root_path _ _ Hconfig'); exact Hroot).
    destruct (IH self2 w2) as (Hconfig2 & Hdirs2 & Hlog2).
    rewrite Hroot2 in Hdirs2.
    split; [congruence |].
    split; [intros q Hq; by rewrite Hdirs2, Hdirs, Hfs |].
    by eapply appended_trans.
  - split; [congruence |]. split; [| done].
    intros q Hq. by rewrite Hdirs, Hfs.
Qed.

Lemma plain_name_dawok : plain_name (py "dawok").
Proof.
  split; [done |]. split; [| done].
  change (py "dawok") with [100; 97; 119; 111; 107]%N.
  intros Hin. repeat (inversion Hin as [| ? ? ? Hin']; subst; clear Hin;
                      rename Hin' into Hin).
Qed.

Lemma online_round_records_and_transcodes_witness :
  let w := recording_world leftover_fs (CallExit 0 (Some [7; 8]%N))
             (CallExit 0 (Some [9]%N)) in
  let out := on_status sample_unicode ONLINE foo_info sample_recorder w in
  out.1.1 = Ret ()
  ∧ w_fs out.2 !! processed_file sample_recorder foo_filename = Some (File [9]%N)
  ∧ w_fs out.2 !! recorded_file sample_recorder foo_filename = None.
Proof.
  intros w out.
  destruct (online_round_records_and_transcodes sample_unicode sample_recorder w
              foo_info (stream_record "Foo") foo_filename [7; 8]%N [9]%N 0 0)
    as (Hret & _ & _ & Hfs & _); try reflexivity.
  { apply plain_name_dawok. }
  fold out in Hret, Hfs. split; [exact Hret |]. rewrite Hfs.
  split; [| apply lookup_delete_eq].
  rewrite lookup_delete_ne, lookup_insert_eq; [done |].
  apply not_eq_sym, capture_paths_differ.
Defined.

Lemma online_round_without_file_skips_witness :
  let w := recording_world leftover_fs (CallExit 1 None) (CallExit 0 None) in
  let out := on_status sample_unicode ONLINE foo_info sample_recorder w in
  out.1.1 = Ret ()
  ∧ new_events w out.2
    = online_prefix sample_recorder foo_filename
      ++ [ELog INFO MsgRecordingDone; ELog INFO MsgSkipFixing;
          ELog INFO MsgProcessingDone; ESleep 15]
  ∧ w_fs out.2 = leftover_fs
  ∧ w_logfile out.2
    = Some [(INFO, MsgOnline (py "dawok")); (INFO, MsgRecordingDone);
            (INFO, MsgSkipFixing); (INFO, MsgProcessingDone)].
Proof.
  intros w out.
  destruct (online_round_without_file_skips sample_unicode sample_recorder w
              foo_info (stream_record "Foo") foo_filename 1)
    as (Hret & _ & Hevents & Hfs & Hlog & _); try reflexivity.
  exact (conj Hret (conj Hevents (conj Hfs Hlog))).
Defined.

Lemma online_round_capture_not_started_witness :
  let w := recording_world leftover_fs (CallRaises FileNotFoundError)
             (CallExit 0 None) in
  let out := check_stream_continuously sample_unicode 3 sample_recorder w in
  out.1.1 = Raise (OSError FileNotFoundError)
  ∧ new_events (check_user sample_recorder w).2 out.2
    = online_prefix (check_user sample_recorder w).1.2 foo_filename.
Proof.
  intros w out.
  destruct (online_round_capture_not_started sample_unicode 2 sample_recorder
              (check_user sample_recorder w).1.2 w (check_user sample_recorder w).2
              foo_info (stream_record "Foo") foo_filename FileNotFoundError)
    as (Hret & Hevents & _); try reflexivity.
  by split.
Defined.

Lemma online_round_unusable_record_witness :
  let info := PDict [(py "data", PList [PDict [(py "id", PStr (py "41"))]])] in
  let w := recording_world leftover_fs (CallExit 0 None) (CallExit 0 None) in
  let out := on_status sample_unicode ONLINE info sample_recorder w in
  out.1.1 = Raise TypeError ∧ w_fs out.2 = leftover_fs.
Proof.
  intros info w out.
  destruct (online_round_unusable_record sample_unicode sample_recorder w info
              (PDict [(py "id", PStr (py "41"))]))
    as (Hret & _ & _ & Hfs & _);
    [reflexivity | reflexivity | by intros title | ].
  by split.
Defined.

Lemma online_round_move_failure_ends_loop_witness :
  let w := recording_world readonly_fs (CallExit 0 (Some [7; 8]%N))
             (CallExit 0 None) in
  let out := on_status sample_unicode ONLINE foo_info moving_recorder w in
  out.1.1 = Raise (OSError PermissionError)
  ∧ w_fs out.2 !! recorded_file moving_recorder foo_filename
    = Some (File [7; 8]%N).
Proof.
  intros w out.
  destruct (online_round_move_failure_ends_loop sample_unicode moving_recorder w
              foo_info (stream_record "Foo") foo_filename [7; 8]%N 0
              (OSError PermissionError))
    as (Hret & _ & Hfs & _); try reflexivity.
  fold out in Hret, Hfs. split; [exact Hret |]. rewrite Hfs.
  apply lookup_insert_eq.
Defined.

Lemma loop_keeps_config_and_directories_witness :
  let w := recording_world leftover_fs (CallExit 0 (Some [7; 8]%N))
             (CallExit 0 (Some [9]%N)) in
  let out := check_stream_continuously sample_unicode 2 sample_recorder w in
  config_of out.1.2 = config_of sample_recorder
  ∧ w_fs out.2 !! raw_dir = Some (Dir true)
  ∧ w_fs out.2 !! done_dir = Some (Dir true).
Proof.
  intros w out.
  destruct (loop_keeps_config_and_directories sample_unicode 2 sample_recorder w
              plain_name_dawok) as (Hconfig & Hdirs & _).
  fold out in Hconfig, Hdirs. split; [exact Hconfig |].
  split; (etransitivity; [apply Hdirs; cbn; lia | reflexivity]).
Defined.

(** ** File names, continued *)

Lemma clean_filename_app unicode (s t : pystr) :
  clean_filename unicode (s ++ t)
  = clean_filename unicode s ++ clean_filename unicode t.
Proof. apply List.filter_app. Qed.

Lemma clean_filename_separator unicode :
  clean_filename unicode (py " - ") = py " - ".
Proof. reflexivity. Qed.

Lemma clean_filename_extension unicode :
  clean_filename unicode (py ".mp4") = py ".mp4".
Proof. reflexivity. Qed.

(** X12: the name of a capture. When the first record gives a name, its
    title is a string and the name is the cleaned user name, the cleaned
    time and the cleaned title, joined by [" - "], with the extension
    [.mp4]; no ASCII character outside [[A-Za-z0-9 _.-]] occurs in it, so
    it has no path separator. *)
Theorem capture_filename_shape unicode (user now : pystr) (channel : pyval)
    (filename : pystr) :
  capture_filename unicode user now channel = Ret filename →
  (∃ title,
     dict_get channel (py "title") = Ret (PStr title)
     ∧ filename
       = clean_filename unicode user ++ py " - " ++ clean_filename unicode now
         ++ py " - " ++ clean_filename unicode title ++ py ".mp4")
  ∧ ∀ c, c ∈ filename → (c < 128)%N → safe_ascii c = true.
Proof.
  unfold capture_filename.
  destruct (dict_get channel (py "title")) as [[| b | z | title | l | d] | e];
    try done.
  intros Hname.
  assert (Hf : clean_filename unicode
                 (((user ++ py " - " ++ now ++ py " - ") ++ title) ++ py ".mp4")
               = filename) by (unfold str_add in Hname; congruence).
  split.
  - exists title. split; [reflexivity |].
    rewrite <- Hf, !clean_filename_app, !clean_filename_separator,
      clean_filename_extension.
    by rewrite <- !app_assoc.
  - intros c Hin Hc. rewrite <- Hf in Hin.
    match type of Hin with
    | _ ∈ clean_filename _ ?s =>
        pose proof (clean_filename_kept unicode s) as Hkept
    end.
    rewrite Forall_forall in Hkept.
    rewrite <- (keep_char_ascii unicode c Hc). by apply Hkept.
Qed.

Lemma capture_filename_shape_witness :
  (∃ title,
     dict_get (stream_record "Foo: live/now!") (py "title") = Ret (PStr title)
     ∧ py "dawok - 250101 12h00m00s - Foo livenow.mp4"
       = clean_filename sample_unicode (py "dawok") ++ py " - "
         ++ clean_filename sample_unicode (py "250101 12h00m00s")
         ++ py " - " ++ clean_filename sample_unicode title ++ py ".mp4")
  ∧ ∀ c, c ∈ py "dawok - 250101 12h00m00s - Foo livenow.mp4" →
         (c < 128)%N → safe_ascii c = true.
Proof.
  apply (capture_filename_shape sample_unicode (py "dawok")
           (py "250101 12h00m00s") (stream_record "Foo: live/now!")).
  reflexivity.
Defined.

(** ** The post-processor, continued *)

(** X13: processing enabled, the good case. When the transcoder has run
    and written its output, the destination holds that output, the raw
    file is removed and nothing is raised, whatever the return code.
    Of the other files only the log file is written: it gains the record
    that announces the run; every other path is as before. *)
Theorem transcoder_success_replaces_raw (self : TwitchRecorder) (w : World)
    (raw dest : path) (content output : bytes) (returncode : Z) :
  disable_ffmpeg self = false →
  w_ffmpeg w 0 = CallExit returncode (Some output) →
  w_fs w !! raw = Some (File content) →
  dir_writable (w_fs w) (dirname raw) = true →
  dest ≠ raw → dest ≠ dirname raw →
  let out := process_recorded_file raw dest self w in
  out.1.1 = Ret ()
  ∧ w_fs out.2 !! dest = Some (File output)
  ∧ w_fs out.2 !! raw = None
  ∧ (∀ p, p ≠ raw → p ≠ dest → w_fs out.2 !! p = w_fs w !! p)
  ∧ w_logfile out.2
    = (λ records, records ++ [(INFO, MsgFixing raw)]) <$> w_logfile w
  ∧ new_events w out.2
    = [ELog INFO (MsgFixing raw); EFfmpeg (ffmpeg_path self) raw dest].
Proof.
  intros Hon Hrun Hraw Hdir Hne Hne' out.
  destruct (process_transcoded self w raw dest content output returncode)
    as (w' & Hout & Hfs & Htrace & Hlog & _); try done.
  unfold out. rewrite Hout. cbn [fst snd]. rewrite Hfs.
  split; [done |].
  split; [by rewrite lookup_delete_ne, lookup_insert_eq |].
  split; [apply lookup_delete_eq |].
  split; [| split; [done | by apply new_events_app]].
  intros p Hp1 Hp2. by rewrite lookup_delete_ne, lookup_insert_ne.
Qed.

Lemma transcoder_success_replaces_raw_witness :
  let raw := raw_dir ++ [py "a.mp4"] in
  let dest := done_dir ++ [py "a.mp4"] in
  let w := sample_world leftover_fs (GetRaises (RequestException None))
             (CallExit 0 (Some [9]%N)) in
  let out := process_recorded_file raw dest sample_recorder w in
  out.1.1 = Ret ()
  ∧ w_fs out.2 !! dest = Some (File [9]%N)
  ∧ w_fs out.2 !! raw = None.
Proof.
  intros raw dest w out.
  destruct (transcoder_success_replaces_raw sample_recorder w raw dest
              [1; 2; 3]%N [9]%N 0) as (Hret & Hdest & Hraw & _);
    try reflexivity; try discriminate.
  by repeat split.
Defined.

(** X14: with processing enabled the post-processor never raises and
    never changes the recorder: the transcoder is started once, and a
    failure to start it or to remove the raw file is logged as an error
    and swallowed. In particular a raw file that is missing when the
    transcoder returns is reported as [FileNotFoundError] in the log
    only. *)
Theorem process_enabled_never_raises (self : TwitchRecorder) (w : World)
    (raw dest : path) :
  disable_ffmpeg self = false →
  let out := process_recorded_file raw dest self w in
  out.1.1 = Ret ()
  ∧ out.1.2 = self
  ∧ (∃ tail,
       new_events w out.2
       = [ELog INFO (MsgFixing raw); EFfmpeg (ffmpeg_path self) raw dest] ++ tail
       ∧ (tail = [] ∨ ∃ e, tail = [ELog ERROR_LEVEL (MsgException (OSError e))]))
  ∧ (∀ returncode written,
       w_ffmpeg w 0 = CallExit returncode written →
       w_fs w !! raw = None → raw ≠ dest →
       new_events w out.2
       = [ELog INFO (MsgFixing raw); EFfmpeg (ffmpeg_path self) raw dest;
          ELog ERROR_LEVEL (MsgException (OSError FileNotFoundError))]).
Proof.
  intros Hon out. unfold out, new_events.
  unfold_process. unfold emit, set_fs, os_remove. cbn. rewrite Hon; cbn.
  destruct (w_ffmpeg w 0) as [e | returncode written] eqn:Hrun; cbn.
  - rewrite <- !app_assoc, drop_app_length. cbn.
    repeat split; [by eauto |]. intros ? ? [=].
  - destruct written as [output |]; cbn.
    + destruct (<[dest := File output]> (w_fs w) !! raw) as [[c | b] |] eqn:Hraw;
        [destruct (dir_writable _ (dirname raw)) | |]; cbn;
        rewrite <- ?app_assoc, drop_app_length; cbn.
      all: split; [done |]; split; [done |]; split; [by eauto |].
      all: intros ? ? _ Hnone Hne; rewrite lookup_insert_ne in Hraw by done;
        congruence.
    + destruct (w_fs w !! raw) as [[c | b] |] eqn:Hraw;
        [destruct (dir_writable _ (dirname raw)) | |]; cbn;
        rewrite <- ?app_assoc, drop_app_length; cbn.
      all: split; [done |]; split; [done |]; split; [by eauto |].
      all: intros ? ? _ Hnone Hne; congruence.
Qed.

Lemma process_enabled_never_raises_witness :
  let raw := raw_dir ++ [py "gone.mp4"] in
  let dest := done_dir ++ [py "gone.mp4"] in
  let w := sample_world leftover_fs (GetRaises (RequestException None))
             (CallExit 1 None) in
  let out := process_recorded_file raw dest sample_recorder w in
  out.1.1 = Ret ()
  ∧ new_events w out.2
    = [ELog INFO (MsgFixing raw); EFfmpeg (py "ffmpeg") raw dest;
       ELog ERROR_LEVEL (MsgException (OSError FileNotFoundError))].
Proof.
  intros raw dest w out.
  destruct (process_enabled_never_raises sample_recorder w raw dest eq_refl)
    as (Hret & _ & _ & Hmissing).
  split; [exact Hret |].
  apply (Hmissing 1%Z None); [reflexivity | reflexivity | discriminate].
Defined.

(** ** The startup sweep, continued *)





(** [os.makedirs] of a path that is taken raises, and leaves there what
    there was. *)
Lemma makedirs_from_taken (rest : list pystr) :
  ∀ (done : path) (fs : gmap path node) (n : node),
    rest ≠ [] →
    fs !! (done ++ rest) = Some n →
    ∃ e fs', makedirs_from done rest fs = (Raise (OSError e), fs')
             ∧ fs' !! (done ++ rest) = Some n.
Proof.
  induction rest as [| name rest IH]; [done |].
  intros done fs n _ Htaken.
  destruct rest as [| name' rest].
  - cbn [makedirs_from]. unfold os_mkdir. rewrite Htaken. by eauto.
  - change (makedirs_from done (name :: name' :: rest) fs)
      with (if os_path_exists fs (done ++ [name])
            then makedirs_from (done ++ [name]) (name' :: rest) fs
            else match os_mkdir fs (done ++ [name]) with
                 | (Ret _, fs') =>
                     makedirs_from (done ++ [name]) (name' :: rest) fs'
                 | (Raise e, fs') => (Raise e, fs')
                 end).
    assert (Hassoc : done ++ name :: name' :: rest
                     = (done ++ [name]) ++ name' :: rest)
      by (by rewrite <- app_assoc).
    rewrite Hassoc in Htaken |- *.
    destruct (os_path_exists fs (done ++ [name])); [by apply IH |].
    destruct (os_mkdir_cases fs (done ++ [name])) as [[_ ->] | [e ->]].
    + apply IH; [done |]. rewrite lookup_insert_ne; [done |].
      intros Heq. apply (f_equal length) in Heq.
      rewrite !length_app in Heq. cbn in Heq. lia.
    + by eauto.
Qed.

(** X16: directory creation is outside the [try] of the sweep. When a
    regular file stands where the raw directory should be, [run] raises
    the [OSError] of [os.makedirs] to its caller, after the polling thread
    has been started; the file is left in place. *)
Theorem run_blocked_raw_directory (self : TwitchRecorder) (w : World)
    (content : bytes) :
  let recorded := os_path_join (root_path self) [py "recorded"; username self] in
  w_fs w !! recorded = Some (File content) →
  let out := run self w in
  (∃ e, out.1.1 = Raise (OSError e))
  ∧ new_events w out.2 = [EThreadStart]
  ∧ w_fs out.2 !! recorded = Some (File content).
Proof.
  intros recorded Htaken out.
  assert (Hne : recorded ≠ []).
  { unfold recorded, os_path_join. by destruct (root_path self). }
  destruct (makedirs_from_taken recorded [] (w_fs w) _ Hne Htaken)
    as (e & fs' & Hmake & Hfs').
  assert (Hmakedirs : os_makedirs (w_fs w) recorded = (Raise (OSError e), fs')).
  { unfold os_makedirs. by destruct recorded. }
  unfold out, new_events, run, process_recorded_files. unfold_monad.
  unfold emit, set_fs. cbn. fold recorded.
  unfold os_path_isdir. rewrite Htaken. cbn. rewrite Hmakedirs. cbn.
  rewrite drop_app_length. by eauto.
Qed.

Lemma run_blocked_raw_directory_witness :
  let w := sample_world (<[raw_dir := File [1]%N]> ∅)
             (GetRaises (RequestException None)) (CallExit 0 None) in
  let out := run sample_recorder w in
  (∃ e, out.1.1 = Raise (OSError e))
  ∧ new_events w out.2 = [EThreadStart]
  ∧ w_fs out.2 !! raw_dir = Some (File [1]%N).
Proof.
  intros w.
  apply (run_blocked_raw_directory sample_recorder w [1]%N).
  apply lookup_insert_eq.
Defined.

(** ** Construction and the command line *)

(** What the constructor does: one request to the identity endpoint, whose
    outcome is the constructor's. *)
Lemma init_spec (config : Config) (w : World) :
  let out := init config w in
  w_trace out.2 = w_trace w ++ [ETokenPost (token_url_of config)]
  ∧ w_fs out.2 = w_fs w
  ∧ w_logfile out.2 = w_logfile w
  ∧ match w_token w 0 with
    | Raise e => out.1 = Raise e
    | Ret token =>
        ∃ self0,
          out.1 = Ret self0
          ∧ access_token self0 = token
          ∧ username self0 = cfg_username config
          ∧ quality self0 = py "best"
          ∧ disable_ffmpeg self0 = false
          ∧ root_path self0 = cfg_root_path config
    end.
Proof.
  unfold init, fetch_access_token, token_url_of, pop_token.
  unfold_monad. unfold emit. cbn.
  destruct (w_token w 0) as [token | e]; cbn; [| done].
  split; [done |]. split; [done |]. split; [done |]. by eexists.
Qed.

(** [os.makedirs] raises nothing but [OSError]. *)
Lemma makedirs_from_raises (rest : list pystr) :
  ∀ (done : path) (fs : gmap path node) (e : exn),
    (makedirs_from done rest fs).1 = Raise e → ∃ o, e = OSError o.
Proof.
  induction rest as [| name rest IH]; [done |].
  intros done fs e.
  destruct rest as [| name' rest].
  - cbn [makedirs_from].
    destruct (os_mkdir_cases fs (done ++ [name])) as [[_ ->] | [o ->]];
      cbn; [done |]. intros [= <-]. by eauto.
  - change (makedirs_from done (name :: name' :: rest) fs)
      with (if os_path_exists fs (done ++ [name])
            then makedirs_from (done ++ [name]) (name' :: rest) fs
            else match os_mkdir fs (done ++ [name]) with
                 | (Ret _, fs') =>
                     makedirs_from (done ++ [name]) (name' :: rest) fs'
                 | (Raise e, fs') => (Raise e, fs')
                 end).
    destruct (os_path_exists fs (done ++ [name])); [by apply IH |].
    destruct (os_mkdir_cases fs (done ++ [name])) as [[_ ->] | [o ->]].
    + by apply IH.
    + cbn. intros [= <-]. by eauto.
Qed.

Lemma os_makedirs_raises (fs : gmap path node) (p : path) (e : exn) :
  (os_makedirs fs p).1 = Raise e → ∃ o, e = OSError o.
Proof.
  unfold os_makedirs. destruct p as [| name p].
  - cbn. intros [= <-]. by eauto.
  - apply makedirs_from_raises.
Qed.

(** The [try] block of the sweep raises nothing and changes no attribute
    of the recorder. *)
Lemma process_listed_files_returns (self : TwitchRecorder) (w : World)
    (recorded processed : path) :
  length processed = length recorded →
  let out := process_listed_files recorded processed self w in
  out.1.1 = Ret () ∧ out.1.2 = self
  ∧ ∃ events, w_trace out.2 = w_trace w ++ events.
Proof.
  intros Hlen. unfold process_listed_files.
  match goal with
  | |- context [try_except ?b _ _] => set (body := b)
  end.
  assert (Hbody : ((body self w).1.1 = Ret ()
                   ∨ ∃ e, (body self w).1.1 = Raise (OSError e))
                  ∧ (body self w).1.2 = self
                  ∧ ∃ events, w_trace (body self w).2 = w_trace w ++ events).
  { destruct (os_listdir (w_fs w) recorded) as [names | e] eqn:Hlist.
    - set (video_list :=
             List.filter
               (λ f, os_path_isfile (w_fs w) (os_path_join recorded [f])) names).
      set (start := if 0 <? length video_list
                    then log_record INFO MsgPreviouslyRecorded w else w).
      destruct (sweep_loop self recorded processed video_list Hlen start)
        as (ev & Htrace & _ & _ & Hself & Hres & _).
      assert (Heq : body self w
                    = for_each video_list (λ f,
                        process_recorded_file (os_path_join recorded [f])
                          (os_path_join processed [f])) self start).
      { unfold body, logging_info. unfold_monad. cbn [fst snd]. rewrite Hlist.
        fold video_list. unfold start. by destruct (0 <? length video_list). }
      rewrite Heq. split; [exact Hres |]. split; [exact Hself |].
      rewrite Htrace. unfold start. destruct (0 <? length video_list).
      + cbn. rewrite <- app_assoc. by eexists.
      + by eexists.
    - assert (Heq : body self w = (Raise e, self, w)).
      { unfold body. unfold_monad. cbn [fst snd]. by rewrite Hlist. }
      rewrite Heq. cbn. split; [| split; [done | exists []; by rewrite app_nil_r]].
      right. unfold os_listdir in Hlist.
      destruct (w_fs w !! recorded) as [[] |]; simplify_eq; by eauto. }
  destruct Hbody as (Hres & Hself & events & Htrace).
  destruct (try_except_logs body self w Hres)
    as (Hret & Hself' & _ & tail & Htail & _).
  split; [exact Hret |]. split; [by rewrite Hself' |].
  exists (events ++ tail). by rewrite Htail, Htrace, app_assoc.
Qed.

(** [if os.path.isdir(p) is False: os.makedirs(p)] *)
Lemma makedirs_step (self : TwitchRecorder) (w : World) (p : path) :
  let out := (if negb (os_path_isdir (w_fs w) p)
              then fs_op (λ fs, os_makedirs fs p) else ret ()) self w in
  out.1.2 = self ∧ w_trace out.2 = w_trace w
  ∧ (out.1.1 = Ret () ∨ ∃ o, out.1.1 = Raise (OSError o)).
Proof.
  destruct (os_path_isdir (w_fs w) p); cbn [negb]; [by eauto |].
  unfold fs_op. pose proof (os_makedirs_raises (w_fs w) p) as Hraises.
  destruct (os_makedirs (w_fs w) p) as [[[] | e] fs']; cbn in *; [by eauto |].
  destruct (Hraises e eq_refl) as [o ->]. by eauto.
Qed.

(** [run] starts the polling thread before anything else, changes no
    attribute of the recorder, and lets through nothing but an [OSError]
    of [os.makedirs]. *)
Lemma run_starts_thread (self : TwitchRecorder) (w : World) :
  let out := run self w in
  out.1.2 = self
  ∧ (out.1.1 = Ret () ∨ ∃ o, out.1.1 = Raise (OSError o))
  ∧ ∃ rest, w_trace out.2 = w_trace w ++ EThreadStart :: rest.
Proof.
  unfold run, process_recorded_files, tell, get_self, get_world.
  unfold mbind, M_bind, bind. cbn [fst snd].
  set (recorded := os_path_join (root_path self) [py "recorded"; username self]).
  set (processed := os_path_join (root_path self) [py "processed"; username self]).
  set (w0 := emit EThreadStart w).
  destruct (makedirs_step self w0 recorded) as (Hself1 & Htrace1 & Hres1).
  destruct ((if negb (os_path_isdir (w_fs w0) recorded)
             then fs_op (λ fs, os_makedirs fs recorded) else ret ()) self w0)
    as [[r1 self1] w1]. cbn [fst snd] in *. subst self1.
  destruct Hres1 as [-> | [o ->]]; cycle 1.
  { cbn. split; [done |]. split; [by eauto |]. exists []. by rewrite Htrace1. }
  fold processed.
  destruct (makedirs_step self w1 processed) as (Hself2 & Htrace2 & Hres2).
  destruct ((if negb (os_path_isdir (w_fs w1) processed)
             then fs_op (λ fs, os_makedirs fs processed) else ret ()) self w1)
    as [[r2 self2] w2]. cbn [fst snd] in *. subst self2.
  destruct Hres2 as [-> | [o ->]]; cycle 1.
  { cbn. split; [done |]. split; [by eauto |]. exists [].
    by rewrite Htrace2, Htrace1. }
  destruct (process_listed_files_returns self w2 recorded processed)
    as (Hret & Hself & events & Htrace).
  { unfold recorded, processed, os_path_join. by rewrite !length_app. }
  split; [exact Hself |]. split; [by left |].
  exists events. rewrite Htrace, Htrace2, Htrace1. cbn. by rewrite <- app_assoc.
Qed.

Lemma last_arg_cons (names : list pystr) (o : pystr * pystr)
    (opts : list (pystr * pystr)) :
  last_arg names (o :: opts)
  = match last_arg names opts with
    | Some a => Some a
    | None => if bool_decide (o.1 ∈ names) then Some o.2 else None
    end.
Proof.
  unfold last_arg. cbn. destruct (bool_decide (o.1 ∈ names)).
  - apply last_cons.
  - by destruct (last _).
Qed.

Section MainProperties.

Variable str_upper : pystr → pystr.

(** An option that does not end [main]: it sets an attribute of the
    recorder or logs a line, and leaves the rest as it is. *)
Lemma apply_opt_continues (o : pystr * pystr) (st : MainState) :
  ¬ stops_main str_upper o →
  ∃ st',
    apply_opt str_upper o.1 o.2 st = (None, st')
    ∧ username (m_recorder st')
      = (if bool_decide (o.1 ∈ [py "-u"; py "--username"]) then o.2
         else username (m_recorder st))
    ∧ quality (m_recorder st')
      = (if bool_decide (o.1 ∈ [py "-q"; py "--quality"]) then o.2
         else quality (m_recorder st))
    ∧ disable_ffmpeg (m_recorder st')
      = disable_ffmpeg (m_recorder st)
        || bool_decide (o.1 = py "--disable-ffmpeg")
    ∧ access_token (m_recorder st') = access_token (m_recorder st)
    ∧ root_path (m_recorder st') = root_path (m_recorder st)
    ∧ m_stdout st' = m_stdout st
    ∧ w_fs (m_world st') = w_fs (m_world st)
    ∧ ∃ logs, w_trace (m_world st') = w_trace (m_world st) ++ logs
              ∧ Forall (λ e, ∃ m, e = ELog INFO m) logs
              ∧ w_logfile (m_world st') = logged logs (m_world st).
Proof.
  destruct o as [opt arg]. unfold stops_main, apply_opt. cbn [fst snd].
  intros Hgo.
  destruct (logging_level_named (str_upper arg)) as [level |] eqn:Hlevel.
  all: option_cases.
  all: eexists; split; [reflexivity |]; cbn.
  all: rewrite ?orb_false_r, ?orb_true_r.
  all: do 7 (split; [done |]).
  all: first [ exists []; rewrite app_nil_r, logged_nil; by repeat split
             | eexists; split; [reflexivity |];
               split; [repeat constructor; by eauto | reflexivity] ].
Qed.

(** The options before the first one that ends [main] are gone through
    one after the other. *)
Lemma apply_opts_app (before rest : list (pystr * pystr)) (st : MainState) :
  Forall (λ o, ¬ stops_main str_upper o) before →
  ∃ st',
    apply_opts str_upper (before ++ rest) st = apply_opts str_upper rest st'
    ∧ username (m_recorder st')
      = default (username (m_recorder st))
          (last_arg [py "-u"; py "--username"] before)
    ∧ quality (m_recorder st')
      = default (quality (m_recorder st))
          (last_arg [py "-q"; py "--quality"] before)
    ∧ disable_ffmpeg (m_recorder st')
      = disable_ffmpeg (m_recorder st)
        || has_flag (py "--disable-ffmpeg") before
    ∧ access_token (m_recorder st') = access_token (m_recorder st)
    ∧ root_path (m_recorder st') = root_path (m_recorder st)
    ∧ m_stdout st' = m_stdout st
    ∧ w_fs (m_world st') = w_fs (m_world st)
    ∧ ∃ logs, w_trace (m_world st') = w_trace (m_world st) ++ logs
              ∧ Forall (λ e, ∃ m, e = ELog INFO m) logs
              ∧ w_logfile (m_world st') = logged logs (m_world st).
Proof.
  intros Hgo. revert st.
  induction Hgo as [| o before Ho _ IH]; intros st.
  { exists st. cbn. rewrite orb_false_r. do 8 (split; [done |]).
    exists []. rewrite app_nil_r, logged_nil. by repeat split. }
  destruct (apply_opt_continues o st Ho)
    as (st1 & Hstep & Hu1 & Hq1 & Hd1 & Ha1 & Hr1 & Hs1 & Hf1 & logs1 & Ht1 & Hl1
        & Hfile1).
  destruct (IH st1)
    as (st2 & Hrun & Hu2 & Hq2 & Hd2 & Ha2 & Hr2 & Hs2 & Hf2 & logs2 & Ht2 & Hl2
        & Hfile2).
  exists st2. destruct o as [opt arg]. cbn [fst snd] in *.
  split; [cbn; by rewrite Hstep |].
  split.
  { rewrite Hu2, Hu1, last_arg_cons. cbn [fst snd].
    by destruct (last_arg [py "-u"; py "--username"] before),
         (bool_decide (opt ∈ [py "-u"; py "--username"])). }
  split.
  { rewrite Hq2, Hq1, last_arg_cons. cbn [fst snd].
    by destruct (last_arg [py "-q"; py "--quality"] before),
         (bool_decide (opt ∈ [py "-q"; py "--quality"])). }
  split.
  { rewrite Hd2, Hd1. cbn [has_flag existsb fst]. by rewrite orb_assoc. }
  split; [congruence |]. split; [congruence |]. split; [congruence |].
  split; [congruence |].
  exists (logs1 ++ logs2). split; [by rewrite Ht2, Ht1, app_assoc |].
  split; [by apply Forall_app |].
  rewrite Hfile2. by apply logged_trans.
Qed.

(** Once the root logger has a handler, no option changes it. *)
Lemma apply_opts_logging (opts : list (pystr * pystr)) :
  ∀ st : MainState,
    root_handlers (m_logging st) ≠ 0 →
    m_logging (apply_opts str_upper opts st).2 = m_logging st.
Proof.
  induction opts as [| [opt arg] opts IH]; intros st Hhandlers; [done |].
  cbn [apply_opts].
  assert (Hstep : m_logging (apply_opt str_upper opt arg st).2 = m_logging st).
  { unfold apply_opt, logging_basicConfig.
    repeat case_match; cbn; try done.
    all: by destruct (root_handlers (m_logging st)). }
  destruct (apply_opt str_upper opt arg st) as [[ended |] st1]; cbn in *.
  - done.
  - rewrite IH; [done |]. by rewrite Hstep.
Qed.

(** [main] once the constructor has returned: the state the options are
    gone through from. *)
Lemma main_after_init (config : Config) (w : World) (token : pystr) :
  w_token w 0 = Ret token →
  ∃ self0 w0,
    init config w = (Ret self0, w0)
    ∧ w_trace w0 = w_trace w ++ [ETokenPost (token_url_of config)]
    ∧ w_fs w0 = w_fs w
    ∧ access_token self0 = token
    ∧ username self0 = cfg_username config
    ∧ quality self0 = py "best"
    ∧ disable_ffmpeg self0 = false
    ∧ root_path self0 = cfg_root_path config
    ∧ w_logfile w0 = w_logfile w.
Proof.
  intros Htoken. destruct (init_spec config w) as (Htrace & Hfs & Hlog & Hinit).
  rewrite Htoken in Hinit. destruct Hinit as (self0 & Hret & Hrest).
  exists self0, (init config w).2.
  split; [by rewrite <- Hret; destruct (init config w) |].
  destruct Hrest as (? & ? & ? & ? & ?). by repeat split.
Qed.

(** X17: [main] builds the recorder before it looks at the command line.
    When the token request fails, its exception comes out of [main]
    whatever the arguments are ([-h] and malformed ones included):
    nothing is printed, logging is not configured, and the only thing
    done is the request to the identity endpoint. *)
Theorem main_token_request_first (config : Config)
    (parsed : option (list (pystr * pystr))) (w : World) (e : exn) :
  w_token w 0 = Raise e →
  let r := main str_upper config parsed w in
  r_end r = MainRaises e
  ∧ r_recorder r = None
  ∧ r_logging r = logging_start
  ∧ r_stdout r = []
  ∧ new_events w (r_world r) = [ETokenPost (token_url_of config)].
Proof.
  intros Htoken. destruct (init_spec config w) as (Htrace & _ & _ & Hinit).
  rewrite Htoken in Hinit. unfold main.
  destruct (init config w) as [r0 w0]. cbn [fst snd] in *. subst r0. cbn.
  do 4 (split; [done |]). by apply new_events_app.
Qed.

(** X18: the log option cannot change the level. [main] configures the
    root logger at INFO before it reads the options, and
    [logging.basicConfig] does nothing on a logger that has a handler:
    whatever the command line, the root logger is left with its two
    handlers at level INFO. *)
Theorem main_log_option_keeps_level (config : Config)
    (parsed : option (list (pystr * pystr))) (w : World) (token : pystr) :
  w_token w 0 = Ret token →
  r_logging (main str_upper config parsed w)
  = {| root_handlers := 2; root_level := 20 |}.
Proof.
  intros Htoken.
  destruct (main_after_init config w token Htoken) as (self0 & w0 & Hinit & _).
  unfold main. rewrite Hinit. destruct parsed as [opts |]; [| done].
  match goal with
  | |- context [apply_opts str_upper opts ?s] =>
      pose proof (apply_opts_logging opts s) as Hkept;
      destruct (apply_opts str_upper opts s) as [[ended |] st']
  end.
  - cbn in *. by rewrite Hkept.
  - destruct (run (m_recorder st') (m_world st')) as [[r self'] w''].
    cbn in *. by rewrite Hkept.
Qed.



(** X21: a command line without [-h] and without an invalid level.
    [run] is called, after the options have been applied, on a recorder
    whose user name and quality are those of the last option that gives
    them (the configured user name and ["best"] otherwise), whose
    processing is disabled exactly when [--disable-ffmpeg] occurs, and
    which holds the token fetched by the constructor; [main] returns or
    raises the [OSError] of the directory creation. *)
Theorem main_options_last_wins (config : Config) (w : World) (token : pystr)
    (opts : list (pystr * pystr)) :
  w_token w 0 = Ret token →
  Forall (λ o, ¬ stops_main str_upper o) opts →
  let r := main str_upper config (Some opts) w in
  (r_end r = MainReturns ∨ ∃ o, r_end r = MainRaises (OSError o))
  ∧ r_stdout r = []
  ∧ (∃ self,
       r_recorder r = Some self
       ∧ username self
         = default (cfg_username config)
             (last_arg [py "-u"; py "--username"] opts)
       ∧ quality self
         = default (py "best") (last_arg [py "-q"; py "--quality"] opts)
       ∧ disable_ffmpeg self = has_flag (py "--disable-ffmpeg") opts
       ∧ access_token self = token
       ∧ root_path self = cfg_root_path config)
  ∧ ∃ logs rest,
      new_events w (r_world r)
      = ETokenPost (token_url_of config) :: logs ++ EThreadStart :: rest
      ∧ Forall (λ e, ∃ m, e = ELog INFO m) logs.
Proof.
  intros Htoken Hgo.
  destruct (main_after_init config w token Htoken)
    as (self0 & w0 & Hinit & Htrace & Hfs & Ha0 & Hu0 & Hq0 & Hd0 & Hr0 & _).
  unfold main. rewrite Hinit. cbn zeta.
  match goal with
  | |- context [apply_opts str_upper _ ?s] =>
      destruct (apply_opts_app opts [] s Hgo)
        as (st' & Hrun & Hu & Hq & Hd & Ha & Hr & Hout & _ & logs & Htrace'
            & Hlogs & _)
  end.
  rewrite app_nil_r in Hrun. rewrite Hrun. cbn [apply_opts]. cbn in Hu, Hq, Hd, Ha, Hr, Hout, Htrace'.
  destruct (run_starts_thread (m_recorder st') (m_world st'))
    as (Hself & Hres & rest & Hthread).
  destruct (run (m_recorder st') (m_world st')) as [[r self'] w''].
  cbn [fst snd] in *. subst self'. cbn.
  split. { destruct Hres as [-> | [o ->]]; by eauto. }
  split; [done |].
  split.
  { exists (m_recorder st'). split; [done |].
    rewrite Hu, Hq, Hd, Ha, Hr, Hu0, Hq0, Hd0. by repeat split. }
  exists logs, rest. split; [| done]. apply new_events_app.
  rewrite Hthread, Htrace', Htrace. by rewrite <- !app_assoc.
Qed.

End MainProperties.

Lemma main_token_request_first_witness :
  let r := main ascii_upper sample_config (Some [(py "-h", [])])
             (world_without_identity ∅ (GetRaises (RequestException None))) in
  r_end r = MainRaises (RequestException (Some 503))
  ∧ r_recorder r = None
  ∧ r_logging r = logging_start
  ∧ r_stdout r = []
  ∧ new_events (world_without_identity ∅ (GetRaises (RequestException None)))
      (r_world r)
    = [ETokenPost (token_url_of sample_config)].
Proof.
  apply (main_token_request_first ascii_upper sample_config
           (Some [(py "-h", [])])
           (world_without_identity ∅ (GetRaises (RequestException None)))).
  reflexivity.
Defined.

Lemma main_log_option_keeps_level_witness :
  r_logging
    (main ascii_upper sample_config (Some [(py "--log", py "debug")])
       (sample_world ∅ (GetRaises (RequestException None)) (CallExit 0 None)))
  = {| root_handlers := 2; root_level := 20 |}.
Proof.
  apply (main_log_option_keeps_level ascii_upper sample_config
           (Some [(py "--log", py "debug")])
           (sample_world ∅ (GetRaises (RequestException None)) (CallExit 0 None))
           (py "fresh")).
  reflexivity.
Defined.



Lemma main_options_last_wins_witness :
  let w := sample_world ∅ (GetRaises (RequestException None)) (CallExit 0 None) in
  let opts := [(py "-u", py "foo"); (py "--quality", py "720p");
               (py "--log", py "debug"); (py "--username", py "bar");
               (py "--disable-ffmpeg", [])] in
  let r := main ascii_upper sample_config (Some opts) w in
  ∃ self,
    r_recorder r = Some self
    ∧ username self
      = default (cfg_username sample_config)
          (last_arg [py "-u"; py "--username"] opts)
    ∧ quality self
      = default (py "best") (last_arg [py "-q"; py "--quality"] opts)
    ∧ disable_ffmpeg self = has_flag (py "--disable-ffmpeg") opts
    ∧ access_token self = py "fresh"
    ∧ root_path self = cfg_root_path sample_config.
Proof.
  intros w opts.
  destruct (main_options_last_wins ascii_upper sample_config w (py "fresh") opts)
    as (_ & _ & Hself & _).
  - reflexivity.
  - unfold opts. goes_on.
  - exact Hself.
Defined.

(** ** The branches that are never taken, and the notifications *)

Lemma recording_events_filter (P : event → bool) (events : list event) :
  (∀ e, recording_event e = true → P e = false) →
  forallb recording_event events = true →
  List.filter P events = [].
Proof.
  intros HP. induction events as [| e events IH]; [done |].
  cbn. intros [He Hrest]%andb_true_iff.
  rewrite (HP e He). by apply IH.
Qed.

Lemma recording_event_reached (e : event) :
  recording_event e = true → of_unreached_branch e = false.
Proof. by destruct e as [| | | | [] [] | | | |]. Qed.

Lemma recording_event_no_stop (e : event) :
  recording_event e = true → is_stop_notification e = false.
Proof. by destruct e. Qed.

Lemma recording_event_no_start (e : event) :
  recording_event e = true → is_start_notification e = false.
Proof. by destruct e. Qed.

Lemma process_recorded_file_events (self : TwitchRecorder) (w : World)
    (raw dest : path) :
  let out := process_recorded_file raw dest self w in
  ∃ events, w_trace out.2 = w_trace w ++ events
            ∧ forallb recording_event events = true.
Proof.
  unfold_process; cbn. destruct (disable_ffmpeg self); cbn.
  - destruct (shutil_move (w_fs w) raw dest) as [[[] | e] fs']; cbn;
      trace_grows.
  - destruct (w_ffmpeg w 0) as [e | code [content |]]; cbn.
    + trace_grows.
    + destruct (os_remove _ raw) as [[[] | e] fs']; cbn;
        [| destruct (is_Exception e); cbn]; trace_grows.
    + destruct (os_remove _ raw) as [[[] | e] fs']; cbn;
        [| destruct (is_Exception e); cbn]; trace_grows.
Qed.

(** An ONLINE round: the Start notification comes first, whatever happens
    next, and the recorder is not written. *)
Lemma on_status_online_events unicode (info : pyval) (self : TwitchRecorder)
    (w : World) :
  let out := on_status unicode ONLINE info self w in
  out.1.2 = self
  ∧ ∃ events, w_trace out.2 = w_trace w ++ start_notification self :: events
              ∧ forallb recording_event events = true.
Proof.
  destruct (w_webhook w 0) as [[] | e] eqn:Hposted; cycle 1.
  { destruct (on_status_online_unposted unicode self w info e Hposted)
      as (_ & Hself & Htrace & _).
    cbv zeta. rewrite Hself, Htrace. split; [done |]. by exists []. }
  unfold start_notification.
  destruct (first_channel info) as [channel | e] eqn:Hchannel; cycle 1.
  { unfold on_status, send_stream_start_notification, send_discord_message,
      logging_info, pop_webhook. unfold_monad. unfold emit, log_record. cbn.
    rewrite Hposted; cbn. rewrite Hchannel. cbn.
    split; [done |]. trace_grows. }
  destruct (capture_filename unicode (username self) (w_now w 0) channel)
    as [filename | e] eqn:Hname; cycle 1.
  { unfold on_status, send_stream_start_notification, send_discord_message,
      logging_info, pop_now, pop_webhook. unfold_monad.
    unfold emit, log_record. cbn.
    rewrite Hposted; cbn. rewrite Hchannel; cbn. rewrite Hname. cbn.
    split; [done |]. trace_grows. }
  rewrite (on_status_online_eq _ _ _ _ _ _ Hposted Hchannel Hname).
  destruct (w_streamlink w 0) as [e | code written];
    [split; [done |]; by eexists |].
  match goal with
  | |- context [after_capture self filename self ?w'] => set (w1 := w')
  end.
  assert (Htrace1 : w_trace w1 = w_trace w ++ online_prefix self filename)
    by (unfold w1; by destruct written).
  destruct (os_path_exists (w_fs w1) (recorded_file self filename)) eqn:Hex.
  - rewrite (after_capture_processes _ _ _ Hex).
    destruct (process_recorded_file_events self
                (log_record INFO MsgRecordingDone w1)
                (recorded_file self filename) (processed_file self filename))
      as (events & Htrace & Hall).
    destruct (process_recorded_file_step self
                (log_record INFO MsgRecordingDone w1)
                (recorded_file self filename) (processed_file self filename))
      as (_ & _ & _ & Hself & _).
    destruct (process_recorded_file _ _ self _) as [[[[] | e] self'] w'];
      cbn [fst snd] in Htrace, Hself |- *; subst self'; (split; [done |]).
    + cbn [emit log_record w_trace] in Htrace |- *. rewrite Htrace, Htrace1.
      unfold online_prefix. rewrite <- !app_assoc. cbn [app].
      eexists. split; [reflexivity |].
      cbn [forallb recording_event andb]. rewrite List.forallb_app, Hall. done.
    + cbn [emit log_record w_trace] in Htrace |- *. rewrite Htrace, Htrace1.
      unfold online_prefix. rewrite <- !app_assoc. cbn [app].
      eexists. split; [reflexivity |]. done.
  - rewrite (after_capture_skips _ _ _ Hex).
    cbn [fst snd emit log_record w_trace].
    split; [done |]. rewrite Htrace1. unfold online_prefix. trace_grows.
Qed.

Lemma on_status_events unicode (status : TwitchResponseStatus) (info : pyval)
    (self : TwitchRecorder) (w : World) :
  status = ONLINE ∨ status = OFFLINE ∨ status = ERROR →
  let out := on_status unicode status info self w in
  access_token out.1.2 = access_token self
  ∧ ∃ events, w_trace out.2 = w_trace w ++ events
              ∧ List.filter of_unreached_branch events = [].
Proof.
  intros [-> | [-> | ->]].
  - destruct (on_status_online_events unicode info self w)
      as (Hself & events & Htrace & Hall).
    split; [by rewrite Hself |]. eexists. split; [exact Htrace |].
    cbn. by apply recording_events_filter, Hall; apply recording_event_reached.
  - destruct (start_time_set self) eqn:Hstamped;
      [destruct (w_webhook w 0) as [[] | e] eqn:Hposted |].
    + destruct (on_status_offline unicode info self w (or_intror Hposted))
        as (_ & Hself & Htrace & _).
      rewrite Hstamped in Hself, Htrace.
      split; [by rewrite Hself |]. eexists. by split; [exact Htrace |].
    + destruct (on_status_offline_unposted unicode info self w e Hstamped
                  Hposted) as (_ & Hself & Htrace & _).
      split; [by rewrite Hself |]. eexists. by split; [exact Htrace |].
    + destruct (on_status_offline unicode info self w (or_introl Hstamped))
        as (_ & Hself & Htrace & _).
      rewrite Hstamped in Hself, Htrace.
      split; [by rewrite Hself |]. eexists. by split; [exact Htrace |].
  - destruct (on_status_error unicode info self w) as (Hself & _ & Hcases).
    split; [by rewrite Hself |].
    destruct (w_webhook w 0) as [[] | e]; destruct Hcases as [_ Htrace];
      eexists; by split; [exact Htrace |].
Qed.

(** X22: the polling loop never refreshes the access token. The status
    check never returns UNAUTHORIZED or NOT_FOUND, so that, for any number
    of rounds and any behaviour of the outside world, the loop sends no
    request to the identity endpoint, logs neither the refresh nor
    "username not found", and ends with the credential it started with. *)
Theorem loop_never_refreshes_token unicode (fuel : nat) (self : TwitchRecorder)
    (w : World) :
  let out := check_stream_continuously unicode fuel self w in
  List.filter of_unreached_branch (new_events w out.2) = []
  ∧ access_token out.1.2 = access_token self.
Proof.
  cbv zeta.
  assert (Hloop : ∃ events,
            w_trace (check_stream_continuously unicode fuel self w).2
            = w_trace w ++ events
            ∧ List.filter of_unreached_branch events = []
            ∧ access_token (check_stream_continuously unicode fuel self w).1.2
              = access_token self).
  { revert self w. induction fuel as [| fuel IH]; intros self w.
    { exists []. cbn. by rewrite app_nil_r. }
    rewrite check_stream_continuously_round.
    pose proof (check_user_trace self w) as Htrace0.
    pose proof (check_user_frame self w) as (_ & _ & _ & Htoken0 & _).
    pose proof (check_user_statuses self w) as Hstatus.
    destruct (check_user self w) as [[[[status info] | e] self1] w1];
      cbn [fst snd] in Htrace0, Htoken0, Hstatus |- *; cycle 1.
    { eexists. split; [exact Htrace0 |]. by split. }
    destruct (on_status_events unicode status info self1 w1
                (Hstatus _ _ eq_refl)) as (Htoken1 & events1 & Htrace1 & Hnone1).
    destruct (on_status unicode status info self1 w1) as [[[[] | e] self2] w2];
      cbn [fst snd] in Htoken1, Htrace1 |- *.
    - destruct (IH self2 w2) as (events2 & Htrace2 & Hnone2 & Htoken2).
      exists ([status_request self] ++ events1 ++ events2).
      split; [by rewrite Htrace2, Htrace1, Htrace0, <- !app_assoc |].
      split; [| congruence].
      by rewrite !List.filter_app, Hnone1, Hnone2.
    - exists ([status_request self] ++ events1).
      split; [by rewrite Htrace1, Htrace0, <- !app_assoc |].
      split; [| congruence].
      by rewrite !List.filter_app, Hnone1. }
  destruct Hloop as (events & Htrace & Hnone & Htoken).
  by rewrite (new_events_app _ _ _ Htrace).
Qed.

(** An ONLINE check leaves the session stamped. *)
Lemma check_user_online_stamped (self : TwitchRecorder) (w : World)
    (info : pyval) :
  (check_user self w).1.1 = Ret (ONLINE, info) →
  w_utcnow w 0 ≠ [] →
  start_time_set (check_user self w).1.2 = true.
Proof.
  unfold_check_user; cbn. intros Hret Hnow.
  destruct (w_get w 0) as [e | code body]; cbn in *.
  { destruct (is_RequestException e); [| done].
    by rewrite except_clause_keeps_status in Hret. }
  destruct (response_ok code); cbn in *;
    [| by rewrite except_clause_keeps_status in Hret].
  destruct body as [v | e]; cbn in *; cycle 1.
  { destruct (is_RequestException e); [| done].
    by rewrite except_clause_keeps_status in Hret. }
  repeat (case_match; simplify_eq/=;
          rewrite ?except_clause_keeps_status in * );
    simplify_eq/=; try done.
  all: unfold start_time_set in *; cbn.
  all: first [ by destruct (w_utcnow w 0)
             | by apply negb_false_iff ].
Qed.

Lemma config_of_notifications (a b : TwitchRecorder) :
  config_of a = config_of b →
  stop_notification a = stop_notification b
  ∧ username a = username b ∧ refresh a = refresh b
  ∧ (access_token a = access_token b → status_request a = status_request b).
Proof.
  unfold config_of, stop_notification, status_request.
  intros [=]. repeat split; congruence.
Qed.

(** X23: a session from its start to its end. When a status check finds
    the channel live, the round that follows ends normally (so that the
    post of the Start notification has returned), the next check finds
    the channel offline and the post of the Stop notification returns,
    the loop has sent the Start notification once, right after the first
    check, and the Stop notification once, right after the second;
    between them there are only the capture, the post-processing, their
    log lines and the sleep; and the session stamp is cleared at the
    end. *)
Theorem live_round_then_offline unicode (self : TwitchRecorder) (w : World)
    (info : pyval) :
  let checked := check_user self w in
  let live := on_status unicode ONLINE info checked.1.2 checked.2 in
  checked.1.1 = Ret (ONLINE, info) →
  w_utcnow w 0 ≠ [] →
  live.1.1 = Ret () →
  offline_answer (w_get live.2 0) →
  w_webhook live.2 0 = Ret () →
  let out := check_stream_continuously unicode 2 self w in
  out.1.1 = Ret ()
  ∧ start_time_set out.1.2 = false
  ∧ ∃ recording,
      new_events w out.2
      = status_request self :: start_notification self :: recording
        ++ [status_request self; stop_notification self;
            ELog INFO (MsgOffline (username self) (refresh self));
            ESleep (refresh self)]
      ∧ forallb recording_event recording = true.
Proof.
  intros checked live Honline Hnow Hlive Hoffline Hposted.
  pose proof (check_user_online_stamped self w info Honline Hnow) as Hstamped.
  pose proof (check_user_trace self w) as Htrace0.
  pose proof (check_user_frame self w) as (_ & _ & Hconfig0 & Htoken0 & _).
  destruct (on_status_online_events unicode info checked.1.2 checked.2)
    as (Hself1 & recording & Htrace1 & Hall).
  fold live in Hself1, Htrace1.
  destruct (offline_round unicode 0 live.1.2 live.2 Hoffline
              (or_intror Hposted))
    as (self' & w' & Hround & Hclear & _ & Htrace2 & _).
  assert (Hout : check_stream_continuously unicode 2 self w = (Ret (), self', w')).
  { rewrite check_stream_continuously_round. fold checked.
    destruct checked as [[r0 self1] w1] eqn:Hchecked. cbn [fst snd] in *.
    subst r0. cbn [fst snd]. fold live.
    destruct live as [[r1 self2] w2] eqn:Hl. cbn [fst snd] in *.
    subst r1. exact Hround. }
  cbv zeta. rewrite Hout. cbn [fst snd].
  split; [done |]. split; [exact Hclear |].
  exists recording. split; [| exact Hall].
  apply new_events_app. rewrite Htrace2, Htrace1.
  fold checked in Htrace0, Hstamped.
  rewrite Htrace0, Hself1, Hstamped.
  destruct (config_of_notifications _ _ Hconfig0) as (Hstop & Huser & Hrefresh & Hreq).
  fold checked in Hstop, Huser, Hrefresh, Hreq, Htoken0.
  rewrite Hstop, Huser, Hrefresh, (Hreq Htoken0).
  unfold start_notification.
  assert (Hurl : discord_webhook_url checked.1.2 = discord_webhook_url self).
  { fold checked in Hconfig0. unfold config_of in Hconfig0. congruence. }
  rewrite Hurl, Huser. by rewrite <- !app_assoc.
Qed.

Lemma live_round_then_offline_witness :
  let out := check_stream_continuously sample_unicode 2 sample_recorder
               session_world in
  out.1.1 = Ret ()
  ∧ start_time_set out.1.2 = false
  ∧ ∃ recording,
      new_events session_world out.2
      = status_request sample_recorder :: start_notification sample_recorder
        :: recording
        ++ [status_request sample_recorder; stop_notification sample_recorder;
            ELog INFO (MsgOffline (username sample_recorder)
                         (refresh sample_recorder));
            ESleep (refresh sample_recorder)]
      ∧ forallb recording_event recording = true.
Proof.
  apply (live_round_then_offline sample_unicode sample_recorder session_world
           foo_info).
  - reflexivity.
  - by vm_compute.
  - by vm_compute.
  - exists 200, [(py "data", PList [])]. by repeat split.
  - reflexivity.
Defined.
